(** * otel-ecommerce: the order workflow, the inventory service, the cache
      and the HTTP error handler, embedded from the JavaScript sources

    Sources embedded here:
    - [src/api/src/services/inventory.js]   (checkInventory, reserveInventory,
      releaseInventory, getInventoryLevel)
    - [src/api/src/routes/orders.js]        (POST /, GET /:id)
    - [src/api/src/services/payment.js]     (processPayment)
    - [src/api/src/middleware/errorHandler.js] (errorHandler) and the cache
      module that follows it in the same file (get, set, del, deletePattern)
    - the schema of [src/unnamed/part_001]  (column types)

    Modelling scope.  Asynchronous code is run sequentially, one request at
    a time.  The PostgreSQL and Redis servers always answer: connection
    failures and PostgreSQL range errors (INTEGER and DECIMAL(10,2) overflow)
    are not modelled, integers of the store are mathematical integers.
    Telemetry is an output-only sink: [withSpan] hands on what its function
    returns or throws, events, span attributes and logs are left out.
    JavaScript numbers are IEEE-754 binary64 values, which is what Rocq's
    primitive floats are. *)

From Stdlib Require Import ZArith Ascii Floats.PrimFloat Floats.SpecFloat Floats.FloatOps.
From stdpp Require Import gmap strings list pretty.

Open Scope Z_scope.

Set Warnings "-register-all".

(** ** JavaScript values *)

Module JS.

(** The JavaScript values that occur in the modelled code.  A [Date] object
    is represented by the text its [toISOString()] returns; an object by its
    own enumerable properties in property order. *)
Inductive jsval : Type :=
| JUndefined
| JNull
| JBool (b : bool)
| JNum (x : float)
| JStr (s : string)
| JDate (iso : string)
| JArr (elems : list jsval)
| JObj (props : list (string * jsval)).

(** The syntax tree of a JSON text.  Redis holds the text; the text and its
    tree determine each other. *)
Inductive json : Type :=
| JsonNull
| JsonBool (b : bool)
| JsonNum (x : float)
| JsonStr (s : string)
| JsonArr (elems : list json)
| JsonObj (members : list (string * json)).

(** An integer as a JavaScript number: the nearest binary64 value. *)
Definition number_of_Z (z : Z) : float :=
  SF2Prim (binary_normalize prec emax z 0 false).

(** [JSON.stringify] writes a finite number by its shortest round-trip
    decimal (minus zero as [0]) and a NaN or an infinity as [null]. *)
Definition stringify_number (x : float) : json :=
  if is_finite x
  then JsonNum (if PrimFloat.is_zero x && get_sign x then zero else x)
  else JsonNull.

(** [JSON.stringify(v)]: [None] stands for the result [undefined].  An
    [undefined] array element is written [null], an [undefined] property is
    left out, a [Date] is written through its [toJSON()]. *)
Fixpoint stringify (v : jsval) : option json :=
  match v with
  | JUndefined => None
  | JNull => Some JsonNull
  | JBool b => Some (JsonBool b)
  | JNum x => Some (stringify_number x)
  | JStr s => Some (JsonStr s)
  | JDate iso => Some (JsonStr iso)
  | JArr elems =>
      Some (JsonArr (map (fun e => default JsonNull (stringify e)) elems))
  | JObj props =>
      Some (JsonObj
              ((fix members (l : list (string * jsval)) : list (string * json) :=
                  match l with
                  | [] => []
                  | (k, e) :: l' =>
                      match stringify e with
                      | Some j => (k, j) :: members l'
                      | None => members l'
                      end
                  end) props))
  end.

(** [JSON.parse] of the text of a tree. *)
Fixpoint parse (j : json) : jsval :=
  match j with
  | JsonNull => JNull
  | JsonBool b => JBool b
  | JsonNum x => JNum x
  | JsonStr s => JStr s
  | JsonArr elems => JArr (map parse elems)
  | JsonObj members =>
      JObj ((fix props (l : list (string * json)) : list (string * jsval) :=
               match l with
               | [] => []
               | (k, e) :: l' => (k, parse e) :: props l'
               end) members)
  end.

(** The object members written by [stringify], named. *)
Fixpoint stringify_props (l : list (string * jsval)) : list (string * json) :=
  match l with
  | [] => []
  | (k, e) :: l' =>
      match stringify e with
      | Some j => (k, j) :: stringify_props l'
      | None => stringify_props l'
      end
  end.

Fixpoint parse_members (l : list (string * json)) : list (string * jsval) :=
  match l with
  | [] => []
  | (k, e) :: l' => (k, parse e) :: parse_members l'
  end.

(** [ToBoolean]: the condition of [if (v)] and of [v ? a : b]. *)
Definition truthy (v : jsval) : bool :=
  match v with
  | JUndefined | JNull => false
  | JBool b => b
  | JNum x => negb (PrimFloat.is_zero x || is_nan x)
  | JStr s => negb (String.eqb s "")
  | JDate _ | JArr _ | JObj _ => true
  end.

(** Property read [o.k] on an object; a missing property reads [undefined]. *)
Fixpoint lookup_prop (k : string) (props : list (string * jsval)) : jsval :=
  match props with
  | [] => JUndefined
  | (k', e) :: props' => if String.eqb k k' then e else lookup_prop k props'
  end.

Definition get_prop (k : string) (v : jsval) : jsval :=
  match v with
  | JObj props => lookup_prop k props
  | _ => JUndefined
  end.

Definition has_prop (k : string) (v : jsval) : bool :=
  match v with
  | JObj props => existsb (fun kv => String.eqb k (fst kv)) props
  | _ => false
  end.

(** Property write [o.k = e]: in place when [k] is there, appended if not. *)
Fixpoint assign_prop (k : string) (e : jsval) (props : list (string * jsval))
  : list (string * jsval) :=
  match props with
  | [] => [(k, e)]
  | (k', e') :: props' =>
      if String.eqb k k' then (k', e) :: props'
      else (k', e') :: assign_prop k e props'
  end.

(** A value that holds no [Date], no [undefined], no NaN, infinity or minus
    zero: the values that [JSON.parse] returns. *)
Fixpoint json_pure (v : jsval) : bool :=
  match v with
  | JUndefined | JDate _ => false
  | JNull | JBool _ | JStr _ => true
  | JNum x => is_finite x && negb (PrimFloat.is_zero x && get_sign x)
  | JArr elems => forallb json_pure elems
  | JObj props => forallb (fun kv => json_pure (snd kv)) props
  end.

End JS.

Import JS.

(** ** Errors, the store, the cache and the effects of a request *)

(** A thrown [Error] object with the properties the code sets and reads:
    [message], [code], [statusCode], [details], [reason], [stack].  An
    absent property is [None]. *)
Record js_error := mk_error {
  err_message : string;
  err_code : option string;
  err_statusCode : option Z;
  err_details : option (list jsval);
  err_reason : option string;
  err_stack : string;
}.

(** [new Error(message)]: the stack text starts with the message line. *)
Definition new_Error (message : string) : js_error :=
  {| err_message := message; err_code := None; err_statusCode := None;
     err_details := None; err_reason := None;
     err_stack := "Error: " +:+ message |}.

Definition with_code (code : string) (e : js_error) : js_error :=
  {| err_message := err_message e; err_code := Some code;
     err_statusCode := err_statusCode e; err_details := err_details e;
     err_reason := err_reason e; err_stack := err_stack e |}.

Definition with_statusCode (sc : Z) (e : js_error) : js_error :=
  {| err_message := err_message e; err_code := err_code e;
     err_statusCode := Some sc; err_details := err_details e;
     err_reason := err_reason e; err_stack := err_stack e |}.

Definition with_details (d : list jsval) (e : js_error) : js_error :=
  {| err_message := err_message e; err_code := err_code e;
     err_statusCode := err_statusCode e; err_details := Some d;
     err_reason := err_reason e; err_stack := err_stack e |}.

Definition with_reason (r : string) (e : js_error) : js_error :=
  {| err_message := err_message e; err_code := err_code e;
     err_statusCode := err_statusCode e; err_details := err_details e;
     err_reason := Some r; err_stack := err_stack e |}.

(** Rows of the four tables of the schema.  [price] is a DECIMAL(10,2),
    held as its number of hundredths; the driver hands it to JavaScript as
    its decimal text.  [total_amount] is the JavaScript number that the
    INSERT binds to the column: the rounding to two decimals that the
    DECIMAL(10,2) column then applies is PostgreSQL's and is not modelled.
    The timestamp columns are left out. *)
Record product := mk_product {
  sku : string;
  name : string;
  price : Z;
  stock_quantity : Z;
}.

Record user := mk_user {
  email : string;
  user_name : string;
}.

Record order := mk_order {
  user_id : Z;
  status : string;
  total_amount : float;
  payment_method : string;
  payment_status : string;
}.

Record order_item := mk_order_item {
  oi_order_id : Z;
  oi_product_id : Z;
  oi_quantity : Z;
  oi_price : Z;
}.

(** The relational store; [orders_id_seq] is the last value of the SERIAL
    sequence of [orders.id]. *)
Record database := mk_database {
  products : gmap Z product;
  users : gmap Z user;
  orders : gmap Z order;
  order_items : list order_item;
  orders_id_seq : Z;
}.

(** One call of the payment gateway: order id, amount, method. *)
Record payment_call := mk_payment_call {
  pc_order_id : Z;
  pc_amount : float;
  pc_method : string;
}.

(** What a request can read and change: the committed store, the open
    transaction of the pooled client the request holds (its private view of
    the store between BEGIN and COMMIT or ROLLBACK), the Redis keys with the
    JSON texts they hold, and the calls made to the payment gateway. *)
Record world := mk_world {
  w_db : database;
  w_tx : option database;
  w_cache : gmap string json;
  w_payments : list payment_call;
}.

Definition set_db (d : database) (w : world) : world :=
  {| w_db := d; w_tx := w_tx w; w_cache := w_cache w; w_payments := w_payments w |}.
Definition set_tx (t : option database) (w : world) : world :=
  {| w_db := w_db w; w_tx := t; w_cache := w_cache w; w_payments := w_payments w |}.
Definition set_cache (c : gmap string json) (w : world) : world :=
  {| w_db := w_db w; w_tx := w_tx w; w_cache := c; w_payments := w_payments w |}.
Definition log_payment (c : payment_call) (w : world) : world :=
  {| w_db := w_db w; w_tx := w_tx w; w_cache := w_cache w;
     w_payments := w_payments w ++ [c] |}.

Definition set_products (ps : gmap Z product) (d : database) : database :=
  {| products := ps; users := users d; orders := orders d;
     order_items := order_items d; orders_id_seq := orders_id_seq d |}.
Definition set_orders (os : gmap Z order) (d : database) : database :=
  {| products := products d; users := users d; orders := os;
     order_items := order_items d; orders_id_seq := orders_id_seq d |}.

Definition set_stock (s : Z) (p : product) : product :=
  {| sku := sku p; name := name p; price := price p; stock_quantity := s |}.

(** *** The monad of an async function: state and exceptions *)

Inductive outcome (A : Type) : Type :=
| Returned (a : A)
| Thrown (e : js_error).
Arguments Returned {A} a.
Arguments Thrown {A} e.

Definition M (A : Type) : Type := world -> outcome A * world.

Definition ret {A} (a : A) : M A := fun w => (Returned a, w).

Definition bind {A B} (m : M A) (k : A -> M B) : M B :=
  fun w =>
    match m w with
    | (Returned a, w') => k a w'
    | (Thrown e, w') => (Thrown e, w')
    end.

Definition throw {A} (e : js_error) : M A := fun w => (Thrown e, w).

(** [try { m } catch (error) { handler error }] *)
Definition try_catch {A} (m : M A) (handler : js_error -> M A) : M A :=
  fun w =>
    match m w with
    | (Returned a, w') => (Returned a, w')
    | (Thrown e, w') => handler e w'
    end.

(** [try { m } finally { cleanup }] *)
Definition try_finally {A} (m : M A) (cleanup : M unit) : M A :=
  fun w =>
    match m w with
    | (r, w') =>
        match cleanup w' with
        | (Returned _, w'') => (r, w'')
        | (Thrown e, w'') => (Thrown e, w'')
        end
    end.

(** [const x = await m; k] and [await m; k] *)
Notation "'await' x <- m ; k" := (bind m (fun x => k))
  (at level 10, x name, m at level 100, k at level 200, only parsing).
Notation "'await_' m ; k" := (bind m (fun _ => k))
  (at level 10, m at level 100, k at level 200, only parsing).

(** *** utils/tracer.js *)

(** Modelled from the spec: [withSpan] of utils/tracer.js is not among the
    sources.  The specification describes the telemetry helpers as thin
    wrappers over the tracing API and the telemetry as an external sink that
    is no part of the core logic: [withSpan(name, fn)] runs [fn] inside a
    span and hands on what [fn] returns or throws.  The calls of [addEvent],
    [span.setAttribute] and the logger, which only write to that sink, are
    left out of the bodies below. *)
Definition withSpan {A} (name : string) (fn : M A) : M A := fn.

(** *** database.js *)

(** [query(text, params)] on the pool, for a SELECT: it reads the committed
    store. *)
Definition query_select {A} (select : database -> A) : M A :=
  fun w => (Returned (select (w_db w)), w).

(** [query(text, params)] on the pool, for an UPDATE: one statement, its own
    transaction. *)
Definition query_update (update : database -> database) : M unit :=
  fun w => (Returned tt, set_db (update (w_db w)) w).

(** [getClient()] and [client.release()] move a connection out of and into
    the pool. *)
Definition getClient : M unit := ret tt.
Definition client_release : M unit := ret tt.

(** [client.query('BEGIN')], [client.query('COMMIT')],
    [client.query('ROLLBACK')]. *)
Definition client_BEGIN : M unit :=
  fun w => (Returned tt, set_tx (Some (w_db w)) w).

Definition client_COMMIT : M unit :=
  fun w =>
    match w_tx w with
    | Some d => (Returned tt, set_tx None (set_db d w))
    | None => (Returned tt, w)
    end.

Definition client_ROLLBACK : M unit :=
  fun w => (Returned tt, set_tx None w).

(** [client.query(text, params)] for a statement: inside the open
    transaction it works on the transaction's view, outside on the store. *)
Definition client_query {A} (stmt : database -> A * database) : M A :=
  fun w =>
    match w_tx w with
    | Some d => let '(a, d') := stmt d in (Returned a, set_tx (Some d') w)
    | None => let '(a, d') := stmt (w_db w) in (Returned a, set_db d' w)
    end.

(** *** cache.js *)

Module cache.

(** [get(key)]: the stored text parsed, [null] when the key is absent or
    its text is empty. *)
Definition get (key : string) : M jsval :=
  withSpan "cache.get" (
    fun w =>
      match w_cache w !! key with
      | Some value => (Returned (parse value), w)
      | None => (Returned JNull, w)
      end).

(** [set(key, value, ttlSeconds)]: [setEx] of [JSON.stringify(value)].  The
    expiry of the key is outside the model. *)
Definition set (key : string) (value : jsval) (ttlSeconds : Z) : M bool :=
  withSpan "cache.set" (
    fun w =>
      match stringify value with
      | Some serialized => (Returned true, set_cache (<[key := serialized]> (w_cache w)) w)
      | None => (Thrown (new_Error "Invalid argument type"), w)
      end).

(** [del(key)] returns the number of keys removed. *)
Definition del (key : string) : M Z :=
  withSpan "cache.delete" (
    fun w =>
      (Returned (match w_cache w !! key with Some _ => 1 | None => 0 end),
       set_cache (delete key (w_cache w)) w)).

(** Whether a key matches a glob pattern of Redis, for the patterns made of
    plain characters, [?] (any one character) and [*] (any run of
    characters); character classes and escapes are not covered. *)
Fixpoint glob (pattern : string) : string -> bool :=
  match pattern with
  | EmptyString =>
      fun key => match key with EmptyString => true | String _ _ => false end
  | String c pattern' =>
      if Ascii.eqb c "*"%char then
        fix star (key : string) : bool :=
          glob pattern' key
          || match key with
             | EmptyString => false
             | String _ key' => star key'
             end
      else if Ascii.eqb c "?"%char then
        fun key =>
          match key with
          | EmptyString => false
          | String _ key' => glob pattern' key'
          end
      else
        fun key =>
          match key with
          | EmptyString => false
          | String c' key' => Ascii.eqb c c' && glob pattern' key'
          end
  end.

(** [deletePattern(pattern)]: the keys that match are deleted, their number
    is returned. *)
Definition deletePattern (pattern : string) : M Z :=
  withSpan "cache.delete_pattern" (
    fun w =>
      let kept := filter (fun kv => glob pattern (fst kv) = false) (w_cache w) in
      (Returned (Z.of_nat (size (w_cache w)) - Z.of_nat (size kept)),
       set_cache kept w)).

End cache.

(** ** services/inventory.js *)

(** An element of the [items] array of a request: [{ productId, quantity }]. *)
Record order_line := mk_line {
  productId : Z;
  quantity : Z;
}.

(** [SELECT ... FROM products WHERE id = $1]: the rows, each with its id. *)
Definition select_product (id : Z) (d : database) : list (Z * product) :=
  match products d !! id with
  | Some p => [(id, p)]
  | None => []
  end.

(** The two object literals pushed on [results] by [checkInventory]. *)
Definition not_found_entry (id : Z) : jsval :=
  JObj [("productId", JNum (number_of_Z id));
        ("available", JBool false);
        ("reason", JStr "product_not_found")].

Definition found_entry (id : Z) (p : product) (requested : Z) (isAvailable : bool) : jsval :=
  JObj [("productId", JNum (number_of_Z id));
        ("sku", JStr (sku p));
        ("name", JStr (name p));
        ("requested", JNum (number_of_Z requested));
        ("available", JNum (number_of_Z (stock_quantity p)));
        ("sufficient", JBool isAvailable)].

(** The result [{ available, items }] of [checkInventory]. *)
Record check_result := mk_check_result {
  cr_available : bool;
  cr_items : list jsval;
}.

(** The [for] loop of [checkInventory], [results] being the array so far. *)
Fixpoint check_loop (items : list order_line) (results : list jsval) : M (list jsval) :=
  match items with
  | [] => ret results
  | item :: rest =>
      await product <- query_select (select_product (productId item));
      match product with
      | [] => check_loop rest (results ++ [not_found_entry (productId item)])
      | (id, p) :: _ =>
          let isAvailable := stock_quantity p >=? quantity item in
          check_loop rest (results ++ [found_entry id p (quantity item) isAvailable])
      end
  end.

Definition checkInventory (items : list order_line) : M check_result :=
  withSpan "inventory.check" (
    await results <- check_loop items [];
    let allAvailable := forallb (fun r => truthy (get_prop "sufficient" r)) results in
    ret {| cr_available := allAvailable; cr_items := results |}).

(** [UPDATE products SET stock_quantity = stock_quantity - $1
     WHERE id = $2 AND stock_quantity >= $1 RETURNING id, sku, stock_quantity] *)
Definition update_reserve (q id : Z) (d : database) : list (Z * string * Z) * database :=
  match products d !! id with
  | Some p =>
      if stock_quantity p >=? q then
        let p' := set_stock (stock_quantity p - q) p in
        ([(id, sku p', stock_quantity p')],
         set_products (<[id := p']> (products d)) d)
      else ([], d)
  | None => ([], d)
  end.

Definition reserve_error (id : Z) : js_error :=
  new_Error ("Failed to reserve inventory for product " +:+ pretty id
             +:+ ": insufficient stock").

(** The [for] loop of [reserveInventory]. *)
Fixpoint reserve_loop (items : list order_line) : M unit :=
  match items with
  | [] => ret tt
  | item :: rest =>
      await result <- client_query (update_reserve (quantity item) (productId item));
      match result with
      | [] => throw (reserve_error (productId item))
      | (id, _, _) :: _ =>
          await_ cache.del ("product:" +:+ pretty id);
          await_ cache.deletePattern "products:*";
          reserve_loop rest
      end
  end.

(** The result [{ success: true, orderId, itemsReserved }] and its twin
    [{ success: true, orderId, itemsReleased }]. *)
Record stock_result := mk_stock_result {
  sr_success : bool;
  sr_orderId : Z;
  sr_items : nat;
}.

Definition reserveInventory (orderId : Z) (items : list order_line) : M stock_result :=
  withSpan "inventory.reserve" (
    await_ getClient;
    try_finally
      (try_catch
         (await_ client_BEGIN;
          await_ reserve_loop items;
          await_ client_COMMIT;
          ret {| sr_success := true; sr_orderId := orderId; sr_items := length items |})
         (fun error =>
            await_ client_ROLLBACK;
            throw error))
      client_release).

(** [UPDATE products SET stock_quantity = stock_quantity + $1 WHERE id = $2] *)
Definition update_release (q id : Z) (d : database) : unit * database :=
  (tt, set_products
         (alter (fun p => set_stock (stock_quantity p + q) p) id (products d)) d).

(** The [for] loop of [releaseInventory]. *)
Fixpoint release_loop (items : list order_line) : M unit :=
  match items with
  | [] => ret tt
  | item :: rest =>
      await_ client_query (update_release (quantity item) (productId item));
      await_ cache.del ("product:" +:+ pretty (productId item));
      await_ cache.deletePattern "products:*";
      release_loop rest
  end.

Definition releaseInventory (orderId : Z) (items : list order_line) : M stock_result :=
  withSpan "inventory.release" (
    await_ getClient;
    try_finally
      (try_catch
         (await_ client_BEGIN;
          await_ release_loop items;
          await_ client_COMMIT;
          ret {| sr_success := true; sr_orderId := orderId; sr_items := length items |})
         (fun error =>
            await_ client_ROLLBACK;
            throw error))
      client_release).

(** The result [{ productId, sku, name, stockQuantity }]. *)
Record inventory_level := mk_level {
  il_productId : Z;
  il_sku : string;
  il_name : string;
  il_stockQuantity : Z;
}.

Definition getInventoryLevel (id : Z) : M inventory_level :=
  withSpan "inventory.get_level" (
    await result <- query_select (select_product id);
    match result with
    | [] => throw (new_Error ("Product " +:+ pretty id +:+ " not found"))
    | (pid, p) :: _ =>
        ret {| il_productId := pid; il_sku := sku p; il_name := name p;
               il_stockQuantity := stock_quantity p |}
    end).



(** ** services/payment.js *)

(** The four texts of [errorReasons]. *)
Inductive decline_reason : Type :=
| insufficient_funds
| card_declined
| expired_card
| invalid_cvv.

Definition reason_text (r : decline_reason) : string :=
  match r with
  | insufficient_funds => "insufficient_funds"
  | card_declined => "card_declined"
  | expired_card => "expired_card"
  | invalid_cvv => "invalid_cvv"
  end.

(** The random draws of one [processPayment] call: either it fails with a
    drawn reason, or it succeeds with a generated transaction id (and the
    clock's text for [timestamp]). *)
Inductive gateway_draw : Type :=
| Declines (reason : decline_reason)
| Approves (transactionId timestamp : string).

(** The result [{ success, transactionId, amount, paymentMethod, timestamp }]. *)
Record payment_result := mk_payment_result {
  pr_success : bool;
  pr_transactionId : string;
  pr_amount : float;
  pr_paymentMethod : string;
  pr_timestamp : string;
}.

Definition payment_error (r : decline_reason) : js_error :=
  with_reason (reason_text r)
    (with_code "PAYMENT_FAILED"
       (new_Error ("Payment failed: " +:+ reason_text r))).

Definition processPayment (draw : gateway_draw) (orderId : Z) (amount : float)
    (paymentMethod : string) : M payment_result :=
  withSpan "payment.process" (
    fun w =>
      let w' := log_payment {| pc_order_id := orderId; pc_amount := amount;
                               pc_method := paymentMethod |} w in
      match draw with
      | Declines errorReason => (Thrown (payment_error errorReason), w')
      | Approves transactionId timestamp =>
          (Returned {| pr_success := true; pr_transactionId := transactionId;
                       pr_amount := amount; pr_paymentMethod := paymentMethod;
                       pr_timestamp := timestamp |}, w')
      end).

(** ** routes/orders.js: POST / *)

(** The body [{ userId, items, paymentMethod }] of the request. *)
Record order_request := mk_request {
  userId : Z;
  items : list order_line;
  paymentMethod : string;
}.


(** [parseFloat] of the decimal text of a DECIMAL(10,2) value, given by its
    number of hundredths: the binary64 nearest to it.  Below 2^53 the
    hundredths and 100 are exact binary64 values and the binary64 division
    rounds their quotient correctly. *)
Definition parseFloat_decimal (hundredths : Z) : float :=
  (number_of_Z hundredths / number_of_Z 100)%float.

(** An element [{ ...item, price, name, sku, itemTotal }] of [productDetails]. *)
Record product_detail := mk_detail {
  pd_productId : Z;
  pd_quantity : Z;
  pd_price : Z;
  pd_name : string;
  pd_sku : string;
  pd_itemTotal : float;
}.

Definition not_found_error (message : string) : js_error :=
  with_statusCode 404 (with_code "NOT_FOUND" (new_Error message)).

(** Step 2, the [for] loop that validates the products and sums the total. *)
Fixpoint total_loop (items : list order_line) (totalAmount : float)
    (productDetails : list product_detail) : M (float * list product_detail) :=
  match items with
  | [] => ret (totalAmount, productDetails)
  | item :: rest =>
      await productResult <- query_select (select_product (productId item));
      match productResult with
      | [] => throw (not_found_error
                       ("Product " +:+ pretty (productId item) +:+ " not found"))
      | (_, product) :: _ =>
          let itemTotal :=
            (parseFloat_decimal (price product) * number_of_Z (quantity item))%float in
          total_loop rest (totalAmount + itemTotal)%float
            (productDetails ++
               [{| pd_productId := productId item; pd_quantity := quantity item;
                   pd_price := price product; pd_name := name product;
                   pd_sku := sku product; pd_itemTotal := itemTotal |}])
      end
  end.

Definition select_user (id : Z) (d : database) : list (Z * user) :=
  match users d !! id with
  | Some u => [(id, u)]
  | None => []
  end.

(** [INSERT INTO orders (...) VALUES ($1, $2, $3, $4, $5) RETURNING id] *)
Definition insert_order (o : order) (d : database) : list Z * database :=
  let id := orders_id_seq d + 1 in
  ([id],
   {| products := products d; users := users d;
      orders := <[id := o]> (orders d);
      order_items := order_items d; orders_id_seq := id |}).

(** [INSERT INTO order_items (order_id, product_id, quantity, price) VALUES ...] *)
Definition insert_order_item (oi : order_item) (d : database) : unit * database :=
  (tt,
   {| products := products d; users := users d; orders := orders d;
      order_items := order_items d ++ [oi]; orders_id_seq := orders_id_seq d |}).

Fixpoint insert_items_loop (orderId : Z) (productDetails : list product_detail) : M unit :=
  match productDetails with
  | [] => ret tt
  | item :: rest =>
      await_ client_query
               (insert_order_item
                  {| oi_order_id := orderId; oi_product_id := pd_productId item;
                     oi_quantity := pd_quantity item; oi_price := pd_price item |});
      insert_items_loop orderId rest
  end.

(** [UPDATE orders SET status = $1 WHERE id = $2] *)
Definition update_order_status (st : string) (id : Z) (d : database) : database :=
  set_orders
    (alter (fun o => {| user_id := user_id o; status := st;
                        total_amount := total_amount o;
                        payment_method := payment_method o;
                        payment_status := payment_status o |}) id (orders d)) d.

(** [UPDATE orders SET payment_status = $1, status = $2 WHERE id = $3] *)
Definition update_order_payment (ps st : string) (id : Z) (d : database) : database :=
  set_orders
    (alter (fun o => {| user_id := user_id o; status := st;
                        total_amount := total_amount o;
                        payment_method := payment_method o;
                        payment_status := ps |}) id (orders d)) d.

(** [SELECT o.*, u.email, u.name as user_name FROM orders o
     JOIN users u ON o.user_id = u.id WHERE o.id = $1] *)
Definition select_order_user (id : Z) (d : database) : list (Z * order * user) :=
  match orders d !! id with
  | Some o =>
      match users d !! user_id o with
      | Some u => [(id, o, u)]
      | None => []
      end
  | None => []
  end.

(** The 201 response: the first row of [finalOrder] with [items] and
    [payment], and the message. *)
Record order_response := mk_response {
  resp_status : Z;
  resp_order : option (Z * order * user);
  resp_items : list product_detail;
  resp_payment : payment_result;
  resp_message : string;
}.

Definition insufficient_error (unavailableItems : list jsval) : js_error :=
  with_details unavailableItems
    (with_statusCode 409
       (with_code "INSUFFICIENT_INVENTORY"
          (new_Error "Insufficient inventory for one or more items"))).

(** Step 4, the transaction that writes the order and its items. *)
Definition create_order_record (req : order_request) (totalAmount : float)
    (productDetails : list product_detail) : M Z :=
  await_ getClient;
  try_finally
    (try_catch
       (await_ client_BEGIN;
        await orderResult <-
          client_query
            (insert_order
               {| user_id := userId req; status := "pending";
                  total_amount := totalAmount;
                  payment_method := paymentMethod req;
                  payment_status := "pending" |});
        match orderResult with
        | [] => throw (new_Error "Cannot read properties of undefined (reading 'id')")
        | orderId :: _ =>
            await_ insert_items_loop orderId productDetails;
            await_ client_COMMIT;
            ret orderId
        end)
       (fun error =>
          await_ client_ROLLBACK;
          throw error))
    client_release.

(** The handler of [POST /], from step 1 to step 7; [draw] holds the random
    draws of the payment gateway for this request. *)
Definition create_order (draw : gateway_draw) (req : order_request) : M order_response :=
  withSpan "order.create" (
    (* Step 1: validate user exists *)
    await userResult <- query_select (select_user (userId req));
    match userResult with
    | [] => throw (not_found_error "User not found")
    | _ :: _ =>
        (* Step 2: calculate total and validate products *)
        await totals <- total_loop (items req) zero [];
        let totalAmount := fst totals in
        let productDetails := snd totals in
        (* Step 3: check inventory availability *)
        await inventoryCheck <- checkInventory (items req);
        if negb (cr_available inventoryCheck) then
          let unavailableItems :=
            List.filter (fun i => negb (truthy (get_prop "sufficient" i)))
                        (cr_items inventoryCheck) in
          throw (insufficient_error unavailableItems)
        else
          (* Step 4: create order record *)
          await orderId <- create_order_record req totalAmount productDetails;
          (* Step 5: reserve inventory *)
          await_ try_catch
                   (await_ reserveInventory orderId (items req);
                    ret tt)
                   (fun error =>
                      await_ query_update (update_order_status "failed" orderId);
                      throw error);
          (* Step 6: process payment *)
          await paymentResult <-
            try_catch
              (await paymentResult <-
                 processPayment draw orderId totalAmount (paymentMethod req);
               await_ query_update (update_order_payment "completed" "confirmed" orderId);
               ret paymentResult)
              (fun error =>
                 await_ releaseInventory orderId (items req);
                 await_ query_update (update_order_payment "failed" "cancelled" orderId);
                 throw error);
          (* Step 7: return success response *)
          await finalOrder <- query_select (select_order_user orderId);
          ret {| resp_status := 201; resp_order := head finalOrder;
                 resp_items := productDetails; resp_payment := paymentResult;
                 resp_message := "Order created successfully" |}
    end).


(** The total as the loop of step 2 computes it: binary64 products, summed
    from the left, starting from 0. *)
Definition float_total (d : database) (items : list order_line) : float :=
  fold_left (fun acc item =>
               match products d !! productId item with
               | Some p =>
                   (acc + parseFloat_decimal (price p) * number_of_Z (quantity item))%float
               | None => acc
               end) items zero.

(** ** routes/orders.js: GET /:id *)

(** What the driver returns for the two SELECTs of the route, as JavaScript
    objects (one property list per row): the order joined with its user,
    and the order's items joined with their products.  The driver builds
    them from the column types: a number for INTEGER, a string for VARCHAR
    and DECIMAL, a [Date] for TIMESTAMP. *)
Record pg_rows := mk_pg_rows {
  order_rows : database -> Z -> list (list (string * jsval));
  item_rows : database -> Z -> list (list (string * jsval));
}.

(** [res.json(body)]: the status and the body, sent as [JSON.stringify(body)]. *)
Definition http_response : Type := Z * jsval.

Definition wire_body (r : http_response) : option json := stringify (snd r).

Definition validation_error (message : string) : js_error :=
  with_statusCode 400 (with_code "VALIDATION_ERROR" (new_Error message)).

(** The handler of [GET /:id]; [id_param] is [parseInt(req.params.id, 10)],
    [None] standing for NaN. *)
Definition get_order (driver : pg_rows) (id_param : option Z) : M http_response :=
  match id_param with
  | None => throw (validation_error "Invalid order ID")
  | Some orderId =>
      let cacheKey := "order:" +:+ pretty orderId in
      (* Try cache first *)
      await cached <- cache.get cacheKey;
      if truthy cached then
        ret (200, JObj [("order", cached); ("cached", JBool true)])
      else
        (* Fetch from database *)
        await orderResult <- query_select (fun d => order_rows driver d orderId);
        match orderResult with
        | [] => throw (not_found_error "Order not found")
        | row :: _ =>
            await itemsResult <- query_select (fun d => item_rows driver d orderId);
            let order := JObj (assign_prop "items" (JArr (map JObj itemsResult)) row) in
            await_ cache.set cacheKey order 120;
            ret (200, JObj [("order", order); ("cached", JBool false)])
        end
  end.

(** ** middleware/errorHandler.js *)

(** [a || b] on an optional text and on an optional number: the left operand
    when it is there and truthy. *)
Definition or_text (a : option string) (b : string) : string :=
  match a with
  | Some s => if String.eqb s "" then b else s
  | None => b
  end.

Definition or_number (a : option Z) (b : Z) : Z :=
  match a with
  | Some z => if z =? 0 then b else z
  | None => b
  end.

(** [err.code === text] *)
Definition code_is (err : js_error) (text : string) : bool :=
  match err_code err with
  | Some c => String.eqb c text
  | None => false
  end.

(** [errorHandler(err, req, res, next)]: the status and the body of the
    response; [NODE_ENV] is [process.env.NODE_ENV]. *)
Definition errorHandler (NODE_ENV : option string) (err : js_error) : http_response :=
  let statusCode := or_number (err_statusCode err) 500 in
  let statusCode :=
    if code_is err "PAYMENT_FAILED" then 422
    else if code_is err "INSUFFICIENT_INVENTORY" then 409
    else if code_is err "NOT_FOUND" then 404
    else if code_is err "VALIDATION_ERROR" then 400
    else statusCode in
  (statusCode,
   JObj [("error",
          JObj ([("message", JStr (err_message err));
                 ("code", JStr (or_text (err_code err) "INTERNAL_ERROR"))]
                ++ match NODE_ENV with
                   | Some env =>
                       if String.eqb env "development"
                       then [("stack", JStr (err_stack err))] else []
                   | None => []
                   end))]).

(** The status that the error code alone would give: the four codes, else 500. *)
Definition status_of_code (code : option string) : Z :=
  match code with
  | Some "PAYMENT_FAILED" => 422
  | Some "INSUFFICIENT_INVENTORY" => 409
  | Some "NOT_FOUND" => 404
  | Some "VALIDATION_ERROR" => 400
  | _ => 500
  end.

(** ** Predicates of the statements *)


(** The stock of a product of the store, [None] when it does not exist. *)
Definition stock_of (d : database) (id : Z) : option Z :=
  stock_quantity <$> products d !! id.

(** The entry that [checkInventory] pushes for an item, read off the store. *)
Definition check_entry (d : database) (item : order_line) : jsval :=
  match products d !! productId item with
  | Some p =>
      found_entry (productId item) p (quantity item)
        (stock_quantity p >=? quantity item)
  | None => not_found_entry (productId item)
  end.

(** An item that the store cannot serve: its product is missing or has less
    stock than requested. *)
Definition insufficient (d : database) (item : order_line) : bool :=
  match products d !! productId item with
  | Some p => negb (stock_quantity p >=? quantity item)
  | None => true
  end.

(** The products table after the UPDATEs of [reserve_loop], or the id of the
    item at which an UPDATE matches no row. *)
Fixpoint reserve_stock (items : list order_line) (ps : gmap Z product)
  : Z + gmap Z product :=
  match items with
  | [] => inr ps
  | item :: rest =>
      match ps !! productId item with
      | Some p =>
          if stock_quantity p >=? quantity item
          then reserve_stock rest
                 (<[productId item := set_stock (stock_quantity p - quantity item) p]> ps)
          else inl (productId item)
      | None => inl (productId item)
      end
  end.

(** The products table after the UPDATEs of [release_loop]. *)
Fixpoint release_stock (items : list order_line) (ps : gmap Z product)
  : gmap Z product :=
  match items with
  | [] => ps
  | item :: rest =>
      release_stock rest
        (alter (fun p => set_stock (stock_quantity p + quantity item) p)
               (productId item) ps)
  end.


Definition is_returned {A} (r : outcome A) : bool :=
  match r with
  | Returned _ => true
  | Thrown _ => false
  end.

(** An item whose product is not in the store. *)
Definition missing (d : database) (item : order_line) : bool :=
  match products d !! productId item with
  | Some _ => false
  | None => true
  end.

(** The elements that step 2 pushes on [productDetails], read off the store. *)
Definition details_of (d : database) (items : list order_line) : list product_detail :=
  omap (fun item =>
          (fun p =>
             {| pd_productId := productId item; pd_quantity := quantity item;
                pd_price := price p; pd_name := name p; pd_sku := sku p;
                pd_itemTotal :=
                  (parseFloat_decimal (price p) * number_of_Z (quantity item))%float |})
          <$> products d !! productId item) items.

(** The id that the next INSERT INTO orders returns. *)
Definition next_order_id (d : database) : Z := orders_id_seq d + 1.

(** The pending order row that step 4 writes. *)
Definition pending_order (req : order_request) (totalAmount : float) : order :=
  {| user_id := userId req; status := "pending"; total_amount := totalAmount;
     payment_method := paymentMethod req; payment_status := "pending" |}.

(** The store after the transaction of step 4. *)
Definition order_written (req : order_request) (totalAmount : float)
    (productDetails : list product_detail) (d : database) : database :=
  {| products := products d; users := users d;
     orders := <[next_order_id d := pending_order req totalAmount]> (orders d);
     order_items :=
       order_items d ++
       map (fun item =>
              {| oi_order_id := next_order_id d; oi_product_id := pd_productId item;
                 oi_quantity := pd_quantity item; oi_price := pd_price item |})
           productDetails;
     orders_id_seq := next_order_id d |}.


(** ** The seed data of the setup script

    The rows that the setup script of [src/unnamed/part_001] inserts, with
    the ids that the SERIAL columns give them. *)
Definition seed_products : gmap Z product :=
  list_to_map
    [(1, mk_product "LAPTOP-001" "Premium Laptop" 129999 50);
     (2, mk_product "PHONE-001" "Smartphone Pro" 89999 100);
     (3, mk_product "TABLET-001" "Tablet Plus" 59999 75);
     (4, mk_product "HEADPHONE-001" "Wireless Headphones" 24999 200);
     (5, mk_product "WATCH-001" "Smart Watch" 34999 150);
     (6, mk_product "KEYBOARD-001" "Mechanical Keyboard" 12999 80);
     (7, mk_product "MOUSE-001" "Gaming Mouse" 7999 120);
     (8, mk_product "MONITOR-001" "4K Monitor" 49999 40);
     (9, mk_product "SPEAKER-001" "Bluetooth Speaker" 8999 180);
     (10, mk_product "CAMERA-001" "Digital Camera" 149999 30)].

Definition seed_users : gmap Z user :=
  list_to_map
    [(1, mk_user "john@example.com" "John Doe");
     (2, mk_user "jane@example.com" "Jane Smith");
     (3, mk_user "bob@example.com" "Bob Johnson")].

Definition seed_db : database :=
  {| products := seed_products; users := seed_users; orders := ∅;
     order_items := []; orders_id_seq := 0 |}.

(** The seeded store with an empty cache, no transaction open and no
    payment attempted. *)
Definition seed_world : world :=
  {| w_db := seed_db; w_tx := None; w_cache := ∅; w_payments := [] |}.

(** The rows of one confirmed order as the driver returns them: the
    TIMESTAMP columns [created_at] and [updated_at] are [Date] objects, the
    DECIMAL columns are strings. *)
Definition sample_order_row : list (string * jsval) :=
  [("id", JNum (number_of_Z 1));
   ("user_id", JNum (number_of_Z 1));
   ("status", JStr "confirmed");
   ("total_amount", JStr "3899.97");
   ("payment_method", JStr "credit_card");
   ("payment_status", JStr "completed");
   ("created_at", JDate "2023-11-14T22:13:20.000Z");
   ("updated_at", JDate "2023-11-14T22:13:21.000Z");
   ("email", JStr "john@example.com");
   ("user_name", JStr "John Doe")].

Definition sample_item_row : list (string * jsval) :=
  [("id", JNum (number_of_Z 1));
   ("order_id", JNum (number_of_Z 1));
   ("product_id", JNum (number_of_Z 1));
   ("quantity", JNum (number_of_Z 3));
   ("price", JStr "1299.99");
   ("created_at", JDate "2023-11-14T22:13:20.000Z");
   ("sku", JStr "LAPTOP-001");
   ("product_name", JStr "Premium Laptop")].

Definition sample_driver : pg_rows :=
  {| order_rows := fun _ id => if id =? 1 then [sample_order_row] else [];
     item_rows := fun _ id => if id =? 1 then [sample_item_row] else [] |}.

(** The URIError that the Express router passes on when it cannot decode a
    path parameter, as for [GET /api/orders/%E0%A4%A]: it sets [message] and
    [status = statusCode = 400] and no [code]. *)
Definition decode_param_error : js_error :=
  {| err_message := "Failed to decode param '%E0%A4%A'";
     err_code := None; err_statusCode := Some 400;
     err_details := None; err_reason := None;
     err_stack := "URIError: URI malformed" |}.

(** ** Induction on JavaScript values *)

Section jsval_induction.
Variable P : jsval -> Prop.
Hypothesis HUndefined : P JUndefined.
Hypothesis HNull : P JNull.
Hypothesis HBool : forall b, P (JBool b).
Hypothesis HNum : forall x, P (JNum x).
Hypothesis HStr : forall s, P (JStr s).
Hypothesis HDate : forall iso, P (JDate iso).
Hypothesis HArr : forall elems, Forall P elems -> P (JArr elems).
Hypothesis HObj : forall props, Forall (fun kv => P (snd kv)) props -> P (JObj props).

(** Induction on a value, with the hypothesis for every element of an
    array and every property of an object. *)
Fixpoint jsval_nested_ind (v : jsval) : P v :=
  match v with
  | JUndefined => HUndefined
  | JNull => HNull
  | JBool b => HBool b
  | JNum x => HNum x
  | JStr s => HStr s
  | JDate iso => HDate iso
  | JArr elems =>
      HArr elems
        ((fix all (l : list jsval) : Forall P l :=
            match l with
            | [] => @List.Forall_nil _ P
            | e :: l' => @List.Forall_cons _ P e l' (jsval_nested_ind e) (all l')
            end) elems)
  | JObj props =>
      HObj props
        ((fix all (l : list (string * jsval)) : Forall (fun kv => P (snd kv)) l :=
            match l with
            | [] => @List.Forall_nil _ (fun kv => P (snd kv))
            | (k, e) :: l' =>
                @List.Forall_cons _ (fun kv => P (snd kv)) (k, e) l'
                  (jsval_nested_ind e) (all l')
            end) props)
  end.
End jsval_induction.

(** ** Definitions of the further properties *)

(** The quantity that the items request of one product, all lines together. *)
Definition requested (items : list order_line) (id : Z) : Z :=
  foldr (fun item acc =>
           if productId item =? id then quantity item + acc else acc) 0 items.

(** The Redis key of a product. *)
Definition product_key (id : Z) : string := "product:" +:+ pretty id.

(** The cache after the two invalidations that follow the stock UPDATE of
    one line: [cache.del] of the product's key, then [cache.deletePattern]
    of [products:*]. *)
Definition invalidate (c : gmap string json) (item : order_line) : gmap string json :=
  filter (fun kv => cache.glob "products:*" (fst kv) = false)
         (delete (product_key (productId item)) c).

(** Every order id of the store is at most the last value of the sequence. *)
Definition orders_wf (d : database) : Prop :=
  forall id o, orders d !! id = Some o -> id <= orders_id_seq d.


(** The names of the own properties of an object, in order. *)
Definition prop_names (v : jsval) : list string :=
  match v with
  | JObj props => map fst props
  | _ => []
  end.

(** The three end states of an order row: status and payment_status. *)
Definition end_state (o : order) : Prop :=
  (status o = "confirmed" /\ payment_status o = "completed")
  \/ (status o = "cancelled" /\ payment_status o = "failed")
  \/ (status o = "failed" /\ payment_status o = "pending").

(** * Properties *)

(** ** The monad and the store *)

Lemma bind_ret_l {A B} (a : A) (k : A -> M B) w : bind (ret a) k w = k a w.
Proof. reflexivity. Qed.

Lemma bind_returned {A B} (m : M A) (k : A -> M B) w a w' :
  m w = (Returned a, w') -> bind m k w = k a w'.
Proof. intros H. unfold bind. rewrite H. reflexivity. Qed.

Lemma bind_thrown {A B} (m : M A) (k : A -> M B) w e w' :
  m w = (Thrown e, w') -> bind m k w = (Thrown e, w').
Proof. intros H. unfold bind. rewrite H. reflexivity. Qed.

Lemma bind_assoc {A B C} (m : M A) (k : A -> M B) (h : B -> M C) w :
  bind (bind m k) h w = bind m (fun a => bind (k a) h) w.
Proof. unfold bind. destruct (m w) as [[a|e] w1]; reflexivity. Qed.

Lemma bind_ext {A B} (m : M A) (k1 k2 : A -> M B) w :
  (forall a w', k1 a w' = k2 a w') -> bind m k1 w = bind m k2 w.
Proof.
  intros H. unfold bind. destruct (m w) as [[a|e] w1]; [apply H|reflexivity].
Qed.

Lemma query_select_run {A} (f : database -> A) w :
  query_select f w = (Returned (f (w_db w)), w).
Proof. reflexivity. Qed.

(** ** checkInventory *)

Lemma check_loop_run items : forall results w,
  check_loop items results w
  = (Returned (results ++ map (check_entry (w_db w)) items), w).
Proof.
  induction items as [|item rest IH]; intros results w; simpl.
  - rewrite app_nil_r. reflexivity.
  - unfold bind at 1. rewrite query_select_run.
    unfold check_entry at 1, select_product.
    destruct (products (w_db w) !! productId item) as [p|];
      rewrite IH, <- app_assoc; reflexivity.
Qed.

Lemma checkInventory_run items w :
  checkInventory items w
  = (Returned {| cr_available :=
                   forallb (fun r => truthy (get_prop "sufficient" r))
                           (map (check_entry (w_db w)) items);
                 cr_items := map (check_entry (w_db w)) items |}, w).
Proof.
  unfold checkInventory, withSpan. erewrite bind_returned by apply check_loop_run.
  reflexivity.
Qed.

Lemma sufficient_check_entry d item :
  truthy (get_prop "sufficient" (check_entry d item)) = negb (insufficient d item).
Proof.
  unfold check_entry, insufficient.
  destruct (products d !! productId item) as [p|]; simpl.
  - rewrite negb_involutive. reflexivity.
  - reflexivity.
Qed.

Lemma forallb_lookup_false {A} (f : A -> bool) (l : list A) i x :
  l !! i = Some x -> f x = false -> forallb f l = false.
Proof.
  revert i. induction l as [|y l IH]; intros [|i] Hl Hx; simpl in *; try discriminate.
  - injection Hl as ->. rewrite Hx. reflexivity.
  - rewrite (IH _ Hl Hx). apply andb_false_r.
Qed.

(** C10.  When the items passed to [checkInventory] hold a productId with no
    product, the call returns (leaving the world as it was) a result whose
    [available] is false; the entry of the missing product is
    [{ productId, available: false, reason: 'product_not_found' }], without
    the [requested] and [sufficient] properties that the entry of every
    existing product has. *)
Theorem checkInventory_missing_product
    (items : list order_line) (w : world) (i : nat) (item : order_line) :
  items !! i = Some item ->
  products (w_db w) !! productId item = None ->
  exists r entry,
    checkInventory items w = (Returned r, w)
    /\ cr_available r = false
    /\ cr_items r !! i = Some entry
    /\ get_prop "productId" entry = JNum (number_of_Z (productId item))
    /\ get_prop "available" entry = JBool false
    /\ get_prop "reason" entry = JStr "product_not_found"
    /\ has_prop "requested" entry = false
    /\ has_prop "sufficient" entry = false
    /\ (forall j item' p,
          items !! j = Some item' ->
          products (w_db w) !! productId item' = Some p ->
          exists entry',
            cr_items r !! j = Some entry'
            /\ get_prop "requested" entry' = JNum (number_of_Z (quantity item'))
            /\ get_prop "sufficient" entry'
               = JBool (stock_quantity p >=? quantity item')).
Proof.
  intros Hi Hnone.
  eexists; exists (not_found_entry (productId item)).
  split; [apply checkInventory_run|]. simpl.
  assert (He : map (check_entry (w_db w)) items !! i
               = Some (not_found_entry (productId item))).
  { rewrite list_lookup_fmap, Hi. simpl. unfold check_entry.
    rewrite Hnone. reflexivity. }
  split.
  { eapply forallb_lookup_false; [exact He|reflexivity]. }
  split; [exact He|].
  repeat (split; [reflexivity|]).
  intros j item' p Hj Hp.
  exists (found_entry (productId item') p (quantity item')
            (stock_quantity p >=? quantity item')).
  split; [|split; reflexivity].
  rewrite list_lookup_fmap, Hj. simpl. unfold check_entry.
  rewrite Hp. reflexivity.
Qed.

(** A check of one seeded product and one unknown product. *)
Lemma checkInventory_missing_product_witness :
  exists r entry,
    checkInventory [mk_line 1 2; mk_line 99999 1] seed_world = (Returned r, seed_world)
    /\ cr_available r = false
    /\ cr_items r !! 1%nat = Some entry
    /\ get_prop "productId" entry = JNum (number_of_Z 99999)
    /\ get_prop "available" entry = JBool false
    /\ get_prop "reason" entry = JStr "product_not_found"
    /\ has_prop "requested" entry = false
    /\ has_prop "sufficient" entry = false
    /\ (forall j item' p,
          [mk_line 1 2; mk_line 99999 1] !! j = Some item' ->
          products (w_db seed_world) !! productId item' = Some p ->
          exists entry',
            cr_items r !! j = Some entry'
            /\ get_prop "requested" entry' = JNum (number_of_Z (quantity item'))
            /\ get_prop "sufficient" entry'
               = JBool (stock_quantity p >=? quantity item')).
Proof.
  apply (checkInventory_missing_product
           [mk_line 1 2; mk_line 99999 1] seed_world 1 (mk_line 99999 1));
    reflexivity.
Defined.

(** ** reserveInventory and releaseInventory *)

Lemma client_query_in_tx {A} (stmt : database -> A * database) w d :
  w_tx w = Some d ->
  client_query stmt w = (Returned (fst (stmt d)), set_tx (Some (snd (stmt d))) w).
Proof.
  intros H. unfold client_query. rewrite H. destruct (stmt d). reflexivity.
Qed.

(** The cache after the two invalidations that follow a stock UPDATE. *)
Lemma reserve_loop_cons_ok item rest w d p :
  w_tx w = Some d ->
  products d !! productId item = Some p ->
  (stock_quantity p >=? quantity item) = true ->
  reserve_loop (item :: rest) w
  = reserve_loop rest
      (set_cache
         (filter (fun kv => cache.glob "products:*" (fst kv) = false)
                 (delete ("product:" +:+ pretty (productId item)) (w_cache w)))
         (set_tx
            (Some (set_products
                     (<[productId item :=
                          set_stock (stock_quantity p - quantity item) p]> (products d))
                     d)) w)).
Proof.
  intros Htx Hp Hge. simpl. unfold bind at 1.
  rewrite (client_query_in_tx _ _ _ Htx). unfold update_reserve.
  rewrite Hp, Hge. reflexivity.
Qed.

Lemma reserve_loop_cons_fail item rest w d :
  w_tx w = Some d ->
  match products d !! productId item with
  | Some p => (stock_quantity p >=? quantity item) = false
  | None => True
  end ->
  reserve_loop (item :: rest) w
  = (Thrown (reserve_error (productId item)), set_tx (Some d) w).
Proof.
  intros Htx Hp. simpl. unfold bind at 1.
  rewrite (client_query_in_tx _ _ _ Htx). unfold update_reserve.
  destruct (products d !! productId item) as [p|]; [rewrite Hp|]; reflexivity.
Qed.

(** Inside a transaction the loop of [reserveInventory] changes the
    transaction's view and the cache only; it follows [reserve_stock]. *)
Lemma reserve_loop_run items : forall w d,
  w_tx w = Some d ->
  exists c',
    match reserve_stock items (products d) with
    | inr ps' =>
        reserve_loop items w
        = (Returned tt, mk_world (w_db w) (Some (set_products ps' d)) c' (w_payments w))
    | inl id =>
        exists d',
          reserve_loop items w
          = (Thrown (reserve_error id), mk_world (w_db w) (Some d') c' (w_payments w))
    end.
Proof.
  induction items as [|item rest IH]; intros w d Htx.
  - exists (w_cache w). simpl. unfold ret. destruct w as [db tx c pay]; simpl in *.
    subst tx. destruct d; reflexivity.
  - cbn [reserve_stock].
    destruct (products d !! productId item) as [p|] eqn:Hp.
    + destruct (stock_quantity p >=? quantity item) eqn:Hge.
      * rewrite (reserve_loop_cons_ok _ _ _ _ _ Htx Hp Hge).
        match goal with |- context [reserve_loop rest ?w2] =>
          destruct (IH w2 _ eq_refl) as [c' Hc'] end.
        exists c'. exact Hc'.
      * exists (w_cache w).
        rewrite (reserve_loop_cons_fail item rest w d Htx) by (rewrite Hp; exact Hge).
        exists d. reflexivity.
    + exists (w_cache w).
      rewrite (reserve_loop_cons_fail item rest w d Htx) by (rewrite Hp; exact I).
      exists d. reflexivity.
Qed.

Lemma reserve_loop_app l1 l2 w :
  reserve_loop (l1 ++ l2) w = bind (reserve_loop l1) (fun _ => reserve_loop l2) w.
Proof.
  revert w. induction l1 as [|item rest IH]; intros w; simpl.
  - reflexivity.
  - rewrite bind_assoc. apply bind_ext. intros rows w1.
    destruct rows as [|[[id s] q] rows]; [reflexivity|].
    rewrite bind_assoc. apply bind_ext. intros _ w2.
    rewrite bind_assoc. apply bind_ext. intros _ w3.
    apply IH.
Qed.

(** [reserveInventory] as a whole: either every UPDATE of the loop is
    committed, or the error of the first failing item is thrown and the
    store is the one before the call. *)
Lemma reserveInventory_run orderId items w :
  exists c',
    match reserve_stock items (products (w_db w)) with
    | inr ps' =>
        reserveInventory orderId items w
        = (Returned {| sr_success := true; sr_orderId := orderId;
                       sr_items := length items |},
           mk_world (set_products ps' (w_db w)) None c' (w_payments w))
    | inl id =>
        reserveInventory orderId items w
        = (Thrown (reserve_error id), mk_world (w_db w) None c' (w_payments w))
    end.
Proof.
  destruct (reserve_loop_run items (set_tx (Some (w_db w)) w) (w_db w) eq_refl)
    as [c' H].
  exists c'. unfold reserveInventory, withSpan, getClient.
  rewrite bind_ret_l. unfold try_finally, try_catch.
  destruct (reserve_stock items (products (w_db w))) as [id|ps'].
  - destruct H as [d' H].
    rewrite (bind_returned client_BEGIN _ w tt (set_tx (Some (w_db w)) w) eq_refl).
    rewrite (bind_thrown _ _ _ _ _ H). reflexivity.
  - rewrite (bind_returned client_BEGIN _ w tt (set_tx (Some (w_db w)) w) eq_refl).
    rewrite (bind_returned _ _ _ _ _ H). reflexivity.
Qed.

Lemma release_loop_cons item rest w d :
  w_tx w = Some d ->
  release_loop (item :: rest) w
  = release_loop rest
      (set_cache
         (filter (fun kv => cache.glob "products:*" (fst kv) = false)
                 (delete ("product:" +:+ pretty (productId item)) (w_cache w)))
         (set_tx
            (Some (set_products
                     (alter (fun p => set_stock (stock_quantity p + quantity item) p)
                            (productId item) (products d))
                     d)) w)).
Proof.
  intros Htx. simpl. unfold bind at 1.
  rewrite (client_query_in_tx _ _ _ Htx). reflexivity.
Qed.

Lemma release_loop_run items : forall w d,
  w_tx w = Some d ->
  exists c',
    release_loop items w
    = (Returned tt,
       mk_world (w_db w) (Some (set_products (release_stock items (products d)) d))
                c' (w_payments w)).
Proof.
  induction items as [|item rest IH]; intros w d Htx.
  - exists (w_cache w). simpl. unfold ret. destruct w as [db tx c pay]; simpl in *.
    subst tx. destruct d; reflexivity.
  - rewrite (release_loop_cons _ _ _ _ Htx). cbn [release_stock].
    match goal with |- context [release_loop rest ?w2] =>
      destruct (IH w2 _ eq_refl) as [c' Hc'] end.
    exists c'. exact Hc'.
Qed.

(** [releaseInventory] always commits. *)
Lemma releaseInventory_run orderId items w :
  exists c',
    releaseInventory orderId items w
    = (Returned {| sr_success := true; sr_orderId := orderId;
                   sr_items := length items |},
       mk_world (set_products (release_stock items (products (w_db w))) (w_db w))
                None c' (w_payments w)).
Proof.
  destruct (release_loop_run items (set_tx (Some (w_db w)) w) (w_db w) eq_refl)
    as [c' H].
  exists c'. unfold releaseInventory, withSpan, getClient.
  rewrite bind_ret_l. unfold try_finally, try_catch.
  rewrite (bind_returned client_BEGIN _ w tt (set_tx (Some (w_db w)) w) eq_refl).
  rewrite (bind_returned _ _ _ _ _ H). reflexivity.
Qed.



(** C2.  One item with quantity q against a product with stock s: when
    q <= s, [reserveInventory] returns and the stock becomes s - q, which is
    not below zero; when q > s, it throws the reservation error and the
    store is the one before the call. *)
Theorem reserve_single_item
    (orderId : Z) (item : order_line) (w : world) (p : product) :
  products (w_db w) !! productId item = Some p ->
  (quantity item <= stock_quantity p ->
   exists w',
     reserveInventory orderId [item] w
     = (Returned {| sr_success := true; sr_orderId := orderId; sr_items := 1 |}, w')
     /\ stock_of (w_db w') (productId item)
        = Some (stock_quantity p - quantity item)
     /\ 0 <= stock_quantity p - quantity item
     /\ products (w_db w')
        = <[productId item := set_stock (stock_quantity p - quantity item) p]>
            (products (w_db w)))
  /\ (stock_quantity p < quantity item ->
      exists w',
        reserveInventory orderId [item] w
        = (Thrown (reserve_error (productId item)), w')
        /\ w_db w' = w_db w).
Proof.
  intros Hp.
  destruct (reserveInventory_run orderId [item] w) as [c' H].
  simpl in H. rewrite Hp in H.
  split; intros Hq.
  - assert (Hge : (stock_quantity p >=? quantity item) = true) by lia.
    rewrite Hge in H. eexists. split; [exact H|]. simpl.
    split; [|split; [lia|reflexivity]].
    unfold stock_of. simpl. rewrite lookup_insert_eq. reflexivity.
  - assert (Hge : (stock_quantity p >=? quantity item) = false) by lia.
    rewrite Hge in H. eexists. split; [exact H|]. reflexivity.
Qed.

(** Two laptops out of 50 are reserved; 10000 laptops are refused. *)
Lemma reserve_single_item_witness :
  (exists w',
     reserveInventory 1 [mk_line 1 2] seed_world
     = (Returned {| sr_success := true; sr_orderId := 1; sr_items := 1 |}, w')
     /\ stock_of (w_db w') 1 = Some 48
     /\ 0 <= 48
     /\ products (w_db w')
        = <[1 := mk_product "LAPTOP-001" "Premium Laptop" 129999 48]> seed_products)
  /\ (exists w',
        reserveInventory 1 [mk_line 1 10000] seed_world
        = (Thrown (reserve_error 1), w')
        /\ w_db w' = seed_db).
Proof.
  split.
  - apply (proj1 (reserve_single_item 1 (mk_line 1 2) seed_world
                    (mk_product "LAPTOP-001" "Premium Laptop" 129999 50) eq_refl)).
    simpl. lia.
  - apply (proj2 (reserve_single_item 1 (mk_line 1 10000) seed_world
                    (mk_product "LAPTOP-001" "Premium Laptop" 129999 50) eq_refl)).
    simpl. lia.
Defined.

(** C3.  When the conditional decrement of one item matches no row, after
    the items before it were decremented inside the transaction,
    [reserveInventory] throws the error of that item and the store is the
    one before the call: no stock is changed, also not that of the items
    processed before. *)
Theorem reserve_all_or_nothing
    (orderId : Z) (done : list order_line) (item : order_line)
    (rest : list order_line) (w wt : world) :
  reserve_loop done (snd (client_BEGIN w)) = (Returned tt, wt) ->
  fst (client_query (update_reserve (quantity item) (productId item)) wt)
  = Returned [] ->
  exists w',
    reserveInventory orderId (done ++ item :: rest) w
    = (Thrown (reserve_error (productId item)), w')
    /\ w_db w' = w_db w
    /\ w_tx w' = None
    /\ forall id, stock_of (w_db w') id = stock_of (w_db w) id.
Proof.
  intros Hdone Hfail. simpl in Hdone.
  destruct (reserve_loop_run done (set_tx (Some (w_db w)) w) (w_db w) eq_refl)
    as [c1 H1].
  destruct (reserve_stock done (products (w_db w))) as [id|ps1].
  { destruct H1 as [d' H1]. rewrite H1 in Hdone. discriminate. }
  rewrite H1 in Hdone. injection Hdone as <-. simpl in H1.
  match type of H1 with _ = (_, ?w1) => set (w1' := w1) in * end.
  assert (Htx : w_tx w1' = Some (set_products ps1 (w_db w))) by reflexivity.
  rewrite (client_query_in_tx _ _ _ Htx) in Hfail. cbn [fst] in Hfail.
  injection Hfail as Hfail. unfold update_reserve in Hfail.
  cbn [products set_products] in Hfail.
  assert (Hloop : reserve_loop (item :: rest) w1'
                  = (Thrown (reserve_error (productId item)),
                     set_tx (Some (set_products ps1 (w_db w))) w1')).
  { apply reserve_loop_cons_fail; [exact Htx|].
    cbn [products set_products].
    destruct (ps1 !! productId item) as [p|]; [|exact I].
    destruct (stock_quantity p >=? quantity item); [discriminate|reflexivity]. }
  eexists. split.
  - unfold reserveInventory, withSpan, getClient. rewrite bind_ret_l.
    unfold try_finally, try_catch.
    rewrite (bind_returned client_BEGIN _ w tt (set_tx (Some (w_db w)) w) eq_refl).
    erewrite bind_thrown; [reflexivity|].
    rewrite reserve_loop_app. erewrite bind_returned by exact H1. exact Hloop.
  - simpl. repeat split; reflexivity.
Qed.

(** 30 laptops twice out of 50: the second UPDATE matches no row. *)
Lemma reserve_all_or_nothing_witness :
  exists w',
    reserveInventory 1 ([mk_line 1 30] ++ mk_line 1 30 :: [mk_line 2 1]) seed_world
    = (Thrown (reserve_error 1), w')
    /\ w_db w' = w_db seed_world
    /\ w_tx w' = None
    /\ forall id, stock_of (w_db w') id = stock_of (w_db seed_world) id.
Proof.
  eapply (reserve_all_or_nothing 1 [mk_line 1 30] (mk_line 1 30) [mk_line 2 1]
            seed_world); vm_compute; reflexivity.
Defined.



(** ** POST /: the steps of the workflow *)

Lemma total_loop_run items : forall totalAmount productDetails w,
  match List.find (missing (w_db w)) items with
  | Some item =>
      total_loop items totalAmount productDetails w
      = (Thrown (not_found_error
                   ("Product " +:+ pretty (productId item) +:+ " not found")), w)
  | None =>
      total_loop items totalAmount productDetails w
      = (Returned
           (fold_left
              (fun acc item =>
                 match products (w_db w) !! productId item with
                 | Some p =>
                     (acc + parseFloat_decimal (price p)
                            * number_of_Z (quantity item))%float
                 | None => acc
                 end) items totalAmount,
            productDetails ++ details_of (w_db w) items), w)
  end.
Proof.
  induction items as [|item rest IH]; intros totalAmount productDetails w.
  - simpl. unfold details_of. simpl. rewrite app_nil_r. reflexivity.
  - cbn [List.find total_loop fold_left]. unfold bind at 1 2.
    rewrite query_select_run. unfold missing at 1, select_product, details_of.
    cbn [omap list_omap].
    destruct (products (w_db w) !! productId item) as [p|] eqn:Hp;
      [|reflexivity].
    cbn [fmap option_fmap option_map].
    match goal with |- context [total_loop rest ?t ?pd w] =>
      specialize (IH t pd w) end.
    destruct (List.find (missing (w_db w)) rest) as [bad|]; [exact IH|].
    rewrite IH. unfold details_of. rewrite <- app_assoc. reflexivity.
Qed.

Lemma insert_items_loop_run orderId productDetails : forall w d,
  w_tx w = Some d ->
  insert_items_loop orderId productDetails w
  = (Returned tt,
     set_tx
       (Some {| products := products d; users := users d; orders := orders d;
                order_items :=
                  order_items d ++
                  map (fun item =>
                         {| oi_order_id := orderId; oi_product_id := pd_productId item;
                            oi_quantity := pd_quantity item; oi_price := pd_price item |})
                      productDetails;
                orders_id_seq := orders_id_seq d |}) w).
Proof.
  induction productDetails as [|item rest IH]; intros w d Htx.
  - simpl. unfold ret. rewrite app_nil_r. destruct w as [db tx c pay]; simpl in *.
    subst tx. destruct d; reflexivity.
  - cbn [insert_items_loop]. unfold bind at 1.
    rewrite (client_query_in_tx _ _ _ Htx). cbn [fst snd insert_order_item].
    erewrite IH by reflexivity. simpl. rewrite <- app_assoc. reflexivity.
Qed.

Lemma create_order_record_run req totalAmount productDetails w :
  create_order_record req totalAmount productDetails w
  = (Returned (next_order_id (w_db w)),
     mk_world (order_written req totalAmount productDetails (w_db w)) None
              (w_cache w) (w_payments w)).
Proof.
  unfold create_order_record, getClient. rewrite bind_ret_l.
  unfold try_finally, try_catch.
  rewrite (bind_returned client_BEGIN _ w tt (set_tx (Some (w_db w)) w) eq_refl).
  unfold bind at 1.
  rewrite (client_query_in_tx _ _ (w_db w)) by reflexivity.
  cbn [fst snd insert_order].
  erewrite bind_returned by (apply insert_items_loop_run; reflexivity).
  reflexivity.
Qed.

Lemma try_catch_returned {A} (m : M A) (h : js_error -> M A) w a w' :
  m w = (Returned a, w') -> try_catch m h w = (Returned a, w').
Proof. intros H. unfold try_catch. rewrite H. reflexivity. Qed.

Lemma try_catch_thrown {A} (m : M A) (h : js_error -> M A) w e w' :
  m w = (Thrown e, w') -> try_catch m h w = h e w'.
Proof. intros H. unfold try_catch. rewrite H. reflexivity. Qed.

Lemma available_check_entries d items :
  forallb (fun r => truthy (get_prop "sufficient" r)) (map (check_entry d) items)
  = negb (existsb (insufficient d) items).
Proof.
  induction items as [|item rest IH]; [reflexivity|].
  cbn [map forallb existsb]. rewrite IH, sufficient_check_entry, negb_orb.
  reflexivity.
Qed.

Lemma unavailable_check_entries d items :
  List.filter (fun i => negb (truthy (get_prop "sufficient" i)))
              (map (check_entry d) items)
  = map (check_entry d) (List.filter (insufficient d) items).
Proof.
  induction items as [|item rest IH]; [reflexivity|].
  cbn [map List.filter]. rewrite IH, sufficient_check_entry, negb_involutive.
  destruct (insufficient d item); reflexivity.
Qed.

Lemma float_total_fold d items :
  fold_left
    (fun acc item =>
       match products d !! productId item with
       | Some p =>
           (acc + parseFloat_decimal (price p) * number_of_Z (quantity item))%float
       | None => acc
       end) items zero
  = float_total d items.
Proof. reflexivity. Qed.

(** Every run of the handler of [POST /], by the step at which it ends. *)
Lemma create_order_run draw req w :
  let d := w_db w in
  let orderId := next_order_id d in
  let totalAmount := float_total d (items req) in
  let d1 := order_written req totalAmount (details_of d (items req)) d in
  let call := {| pc_order_id := orderId; pc_amount := totalAmount;
                 pc_method := paymentMethod req |} in
  match users d !! userId req with
  | None =>
      create_order draw req w = (Thrown (not_found_error "User not found"), w)
  | Some _ =>
      match List.find (missing d) (items req) with
      | Some item =>
          create_order draw req w
          = (Thrown (not_found_error
                       ("Product " +:+ pretty (productId item) +:+ " not found")), w)
      | None =>
          if existsb (insufficient d) (items req) then
            create_order draw req w
            = (Thrown (insufficient_error
                         (map (check_entry d)
                              (List.filter (insufficient d) (items req)))), w)
          else
            exists c',
              match reserve_stock (items req) (products d) with
              | inl id =>
                  create_order draw req w
                  = (Thrown (reserve_error id),
                     mk_world (update_order_status "failed" orderId d1) None c'
                              (w_payments w))
              | inr ps' =>
                  match draw with
                  | Declines r =>
                      create_order draw req w
                      = (Thrown (payment_error r),
                         mk_world
                           (update_order_payment "failed" "cancelled" orderId
                              (set_products (release_stock (items req) ps') d1))
                           None c' (w_payments w ++ [call]))
                  | Approves transactionId timestamp =>
                      let d2 := update_order_payment "completed" "confirmed" orderId
                                  (set_products ps' d1) in
                      create_order draw req w
                      = (Returned
                           {| resp_status := 201;
                              resp_order := head (select_order_user orderId d2);
                              resp_items := details_of d (items req);
                              resp_payment :=
                                {| pr_success := true;
                                   pr_transactionId := transactionId;
                                   pr_amount := totalAmount;
                                   pr_paymentMethod := paymentMethod req;
                                   pr_timestamp := timestamp |};
                              resp_message := "Order created successfully" |},
                         mk_world d2 None c' (w_payments w ++ [call]))
                  end
              end
      end
  end.
Proof.
  intros d orderId totalAmount d1 call. unfold create_order, withSpan.
  erewrite bind_returned by apply query_select_run.
  unfold select_user. fold d.
  destruct (users d !! userId req) as [u|]; [|reflexivity].
  pose proof (total_loop_run (items req) zero [] w) as Htotal. fold d in Htotal.
  destruct (List.find (missing d) (items req)) as [bad|].
  { erewrite bind_thrown by exact Htotal. reflexivity. }
  rewrite float_total_fold in Htotal. fold totalAmount in Htotal.
  rewrite app_nil_l in Htotal.
  erewrite bind_returned by exact Htotal. cbn [fst snd].
  erewrite bind_returned by apply checkInventory_run.
  cbn [cr_available cr_items]. fold d.
  rewrite available_check_entries, negb_involutive.
  destruct (existsb (insufficient d) (items req)).
  { rewrite unavailable_check_entries. reflexivity. }
  erewrite bind_returned by apply create_order_record_run.
  fold d orderId d1.
  set (w1 := mk_world d1 None (w_cache w) (w_payments w)).
  destruct (reserveInventory_run orderId (items req) w1) as [c1 Hres].
  change (products (w_db w1)) with (products d) in Hres.
  destruct (reserve_stock (items req) (products d)) as [id|ps'].
  - exists c1.
    erewrite bind_thrown; [reflexivity|].
    erewrite try_catch_thrown by (erewrite bind_thrown by exact Hres; reflexivity).
    reflexivity.
  - erewrite bind_returned;
      [|erewrite try_catch_returned;
        [reflexivity|erewrite bind_returned by exact Hres; reflexivity]].
    match type of Hres with _ = (_, ?w') => set (w2 := w') in * end.
    destruct draw as [r|transactionId timestamp].
    + destruct (releaseInventory_run orderId (items req) (log_payment call w2))
        as [c3 Hrel].
      exists c3.
      erewrite bind_thrown; [reflexivity|].
      erewrite try_catch_thrown; [|reflexivity].
      erewrite bind_returned by exact Hrel. reflexivity.
    + exists c1. reflexivity.
Qed.

(** ** Reservation against the check, and release after reservation *)

Lemma set_stock_same p : set_stock (stock_quantity p) p = p.
Proof. destruct p; reflexivity. Qed.

(** Two UPDATEs that add to a stock commute. *)
Lemma alter_stock_commute (ps : gmap Z product) q1 q2 i j :
  alter (fun p => set_stock (stock_quantity p + q1) p) i
        (alter (fun p => set_stock (stock_quantity p + q2) p) j ps)
  = alter (fun p => set_stock (stock_quantity p + q2) p) j
          (alter (fun p => set_stock (stock_quantity p + q1) p) i ps).
Proof.
  apply map_eq. intros k. rewrite !lookup_alter.
  repeat case_decide; try congruence; subst; try reflexivity.
  destruct (ps !! k) as [p|]; simpl; [|reflexivity].
  f_equal. unfold set_stock. simpl. f_equal. lia.
Qed.

(** The UPDATEs of a release commute with one more UPDATE of the same kind. *)
Lemma release_stock_alter items : forall ps q id,
  release_stock items (alter (fun p => set_stock (stock_quantity p + q) p) id ps)
  = alter (fun p => set_stock (stock_quantity p + q) p) id (release_stock items ps).
Proof.
  induction items as [|item rest IH]; intros ps q id; simpl; [reflexivity|].
  rewrite <- IH. f_equal. apply alter_stock_commute.
Qed.

(** Releasing the items of a reservation that succeeded gives back the
    products table from before the reservation. *)
Lemma release_after_reserve items : forall ps ps',
  reserve_stock items ps = inr ps' -> release_stock items ps' = ps.
Proof.
  induction items as [|item rest IH]; intros ps ps' Hres; simpl in *.
  - congruence.
  - destruct (ps !! productId item) as [p|] eqn:Hp; [|discriminate].
    destruct (stock_quantity p >=? quantity item); [|discriminate].
    rewrite release_stock_alter, (IH _ _ Hres).
    apply map_eq. intros k.
    destruct (decide (k = productId item)) as [->|Hk].
    + rewrite lookup_alter_eq, lookup_insert_eq, Hp. simpl. f_equal.
      unfold set_stock. simpl.
      replace (stock_quantity p - quantity item + quantity item)
        with (stock_quantity p) by lia.
      destruct p; reflexivity.
    + rewrite lookup_alter_ne, lookup_insert_ne by congruence. reflexivity.
Qed.

Lemma served_items d items :
  Forall (fun item =>
            exists p, products d !! productId item = Some p
                      /\ quantity item <= stock_quantity p) items ->
  List.find (missing d) items = None /\ existsb (insufficient d) items = false.
Proof.
  induction 1 as [|item rest [p [Hp Hq]] _ [IH1 IH2]]; [split; reflexivity|].
  cbn [List.find existsb]. unfold missing at 1, insufficient at 1.
  rewrite Hp. split; [exact IH1|].
  rewrite IH2. assert ((stock_quantity p >=? quantity item) = true) as -> by lia.
  reflexivity.
Qed.

Lemma reserveInventory_returned orderId items w :
  is_returned (fst (reserveInventory orderId items w)) = true ->
  exists ps', reserve_stock items (products (w_db w)) = inr ps'.
Proof.
  intros H. destruct (reserveInventory_run orderId items w) as [c' Hrun].
  destruct (reserve_stock items (products (w_db w))) as [id|ps']; [|eauto].
  rewrite Hrun in H. discriminate.
Qed.

Lemma reserveInventory_thrown orderId items w e :
  fst (reserveInventory orderId items w) = Thrown e ->
  exists id, reserve_stock items (products (w_db w)) = inl id /\ e = reserve_error id.
Proof.
  intros H. destruct (reserveInventory_run orderId items w) as [c' Hrun].
  destruct (reserve_stock items (products (w_db w))) as [id|ps'];
    rewrite Hrun in H; [|discriminate].
  injection H as <-. eauto.
Qed.

(** ** POST /: the claims about the workflow *)

Lemma order_after_payment_update ps st orderId (d : database) o :
  orders d !! orderId = Some o ->
  orders (update_order_payment ps st orderId d) !! orderId
  = Some {| user_id := user_id o; status := st; total_amount := total_amount o;
            payment_method := payment_method o; payment_status := ps |}.
Proof.
  intros H. unfold update_order_payment. simpl.
  rewrite lookup_alter_eq, H. reflexivity.
Qed.

Lemma order_after_status_update st orderId (d : database) o :
  orders d !! orderId = Some o ->
  orders (update_order_status st orderId d) !! orderId
  = Some {| user_id := user_id o; status := st; total_amount := total_amount o;
            payment_method := payment_method o;
            payment_status := payment_status o |}.
Proof.
  intros H. unfold update_order_status. simpl.
  rewrite lookup_alter_eq, H. reflexivity.
Qed.

Lemma order_written_row req totalAmount productDetails d :
  orders (order_written req totalAmount productDetails d) !! next_order_id d
  = Some (pending_order req totalAmount).
Proof. simpl. apply lookup_insert_eq. Qed.




(** C5.  For an order that was written (the user exists, every product is
    found and covered by its stock at the check) and whose reservation
    succeeded, when the payment gateway declines, the handler releases the
    inventory: the products table is the one before the request (release
    after reserve is the identity on every stock), the order row ends with
    status 'cancelled' and payment_status 'failed', and the payment error,
    with code PAYMENT_FAILED and the drawn reason, is thrown; the error
    handler answers it with status 422, that code and the error's message. *)
Theorem payment_failure_restores_stock
    (reason : decline_reason) (req : order_request) (w : world) (u : user) :
  users (w_db w) !! userId req = Some u ->
  Forall (fun item =>
            exists p, products (w_db w) !! productId item = Some p
                      /\ quantity item <= stock_quantity p) (items req) ->
  is_returned
    (fst (reserveInventory (next_order_id (w_db w)) (items req) w)) = true ->
  exists w' o,
    create_order (Declines reason) req w = (Thrown (payment_error reason), w')
    /\ err_code (payment_error reason) = Some "PAYMENT_FAILED"
    /\ err_reason (payment_error reason) = Some (reason_text reason)
    /\ products (w_db w') = products (w_db w)
    /\ (forall id, stock_of (w_db w') id = stock_of (w_db w) id)
    /\ orders (w_db w') !! next_order_id (w_db w) = Some o
    /\ status o = "cancelled"
    /\ payment_status o = "failed"
    /\ w_payments w'
       = w_payments w
         ++ [{| pc_order_id := next_order_id (w_db w);
                pc_amount := float_total (w_db w) (items req);
                pc_method := paymentMethod req |}]
    /\ (forall NODE_ENV,
          let response := errorHandler NODE_ENV (payment_error reason) in
          fst response = 422
          /\ get_prop "code" (get_prop "error" (snd response)) = JStr "PAYMENT_FAILED"
          /\ get_prop "message" (get_prop "error" (snd response))
             = JStr ("Payment failed: " +:+ reason_text reason)).
Proof.
  intros Hu Hitems Hreserved.
  destruct (reserveInventory_returned _ _ _ Hreserved) as [ps' Hps'].
  destruct (served_items _ _ Hitems) as [Hfound Hserved].
  pose proof (create_order_run (Declines reason) req w) as Hrun. cbv zeta in Hrun.
  rewrite Hu, Hfound, Hserved, Hps' in Hrun. destruct Hrun as [c' Hrun].
  do 2 eexists. split; [exact Hrun|]. cbn [w_db w_payments].
  rewrite (release_after_reserve _ _ _ Hps').
  erewrite order_after_payment_update
    by (cbn [orders set_products]; apply order_written_row).
  repeat split; reflexivity.
Qed.

(** The second seeded user orders a phone and the card is declined. *)
Lemma payment_failure_restores_stock_witness :
  exists w' o,
    create_order (Declines card_declined)
      {| userId := 2; items := [mk_line 2 1]; paymentMethod := "credit_card" |}
      seed_world = (Thrown (payment_error card_declined), w')
    /\ err_code (payment_error card_declined) = Some "PAYMENT_FAILED"
    /\ err_reason (payment_error card_declined) = Some (reason_text card_declined)
    /\ products (w_db w') = products (w_db seed_world)
    /\ (forall id, stock_of (w_db w') id = stock_of (w_db seed_world) id)
    /\ orders (w_db w') !! next_order_id (w_db seed_world) = Some o
    /\ status o = "cancelled"
    /\ payment_status o = "failed"
    /\ w_payments w'
       = w_payments seed_world
         ++ [{| pc_order_id := next_order_id (w_db seed_world);
                pc_amount := float_total (w_db seed_world) [mk_line 2 1];
                pc_method := "credit_card" |}]
    /\ (forall NODE_ENV,
          let response := errorHandler NODE_ENV (payment_error card_declined) in
          fst response = 422
          /\ get_prop "code" (get_prop "error" (snd response)) = JStr "PAYMENT_FAILED"
          /\ get_prop "message" (get_prop "error" (snd response))
             = JStr ("Payment failed: " +:+ reason_text card_declined)).
Proof.
  apply (payment_failure_restores_stock card_declined
           {| userId := 2; items := [mk_line 2 1]; paymentMethod := "credit_card" |}
           seed_world (mk_user "jane@example.com" "Jane Smith") eq_refl).
  - repeat constructor.
    exists (mk_product "PHONE-001" "Smartphone Pro" 89999 100).
    split; [reflexivity|simpl; lia].
  - vm_compute. reflexivity.
Defined.

(** C6.  When the handler throws an error with code NOT_FOUND or
    INSUFFICIENT_INVENTORY, the world is the one before the request: no
    order row was written, no stock and no cache entry changed.  The
    INSUFFICIENT_INVENTORY error carries in [details] the check entries of
    the request's items that the store cannot serve, and there is at least
    one. *)
Theorem early_failure_mutates_nothing
    (draw : gateway_draw) (req : order_request) (w w' : world) (e : js_error) :
  create_order draw req w = (Thrown e, w') ->
  err_code e = Some "NOT_FOUND" \/ err_code e = Some "INSUFFICIENT_INVENTORY" ->
  w' = w
  /\ orders (w_db w') !! next_order_id (w_db w) = orders (w_db w) !! next_order_id (w_db w)
  /\ (err_code e = Some "INSUFFICIENT_INVENTORY" ->
      err_details e
      = Some (map (check_entry (w_db w))
                  (List.filter (insufficient (w_db w)) (items req)))
      /\ List.filter (insufficient (w_db w)) (items req) <> []).
Proof.
  intros Hrun Hcode.
  pose proof (create_order_run draw req w) as H. cbv zeta in H.
  destruct (users (w_db w) !! userId req) as [u|].
  2:{ rewrite H in Hrun. injection Hrun as <- <-.
      split; [reflexivity|]. split; [reflexivity|].
      intros Hc. discriminate Hc. }
  destruct (List.find (missing (w_db w)) (items req)) as [bad|].
  { rewrite H in Hrun. injection Hrun as <- <-.
    split; [reflexivity|]. split; [reflexivity|].
    intros Hc. discriminate Hc. }
  destruct (existsb (insufficient (w_db w)) (items req)) eqn:Hex.
  { rewrite H in Hrun. injection Hrun as <- <-.
    split; [reflexivity|]. split; [reflexivity|].
    intros _. split; [reflexivity|].
    intros Hnil. apply existsb_exists in Hex as [item [Hin Hitem]].
    assert (Hf : In item (List.filter (insufficient (w_db w)) (items req)))
      by (apply filter_In; auto).
    rewrite Hnil in Hf. exact Hf. }
  destruct H as [c' H].
  destruct (reserve_stock (items req) (products (w_db w))) as [id|ps'];
    [|destruct draw as [reason|transactionId timestamp]];
    rewrite H in Hrun; try discriminate;
    injection Hrun as <- <-; destruct Hcode as [Hc|Hc]; discriminate Hc.
Qed.

(** The scenario of the specification: 10000 laptops against a stock of 50. *)
Lemma early_failure_mutates_nothing_witness :
  seed_world = seed_world
  /\ orders (w_db seed_world) !! next_order_id (w_db seed_world)
     = orders (w_db seed_world) !! next_order_id (w_db seed_world)
  /\ (err_code (insufficient_error [check_entry seed_db (mk_line 1 10000)])
      = Some "INSUFFICIENT_INVENTORY" ->
      err_details (insufficient_error [check_entry seed_db (mk_line 1 10000)])
      = Some (map (check_entry (w_db seed_world))
                  (List.filter (insufficient (w_db seed_world))
                     (items {| userId := 1; items := [mk_line 1 10000];
                               paymentMethod := "credit_card" |})))
      /\ List.filter (insufficient (w_db seed_world))
           (items {| userId := 1; items := [mk_line 1 10000];
                     paymentMethod := "credit_card" |}) <> []).
Proof.
  apply (early_failure_mutates_nothing (Declines expired_card)
           {| userId := 1; items := [mk_line 1 10000];
              paymentMethod := "credit_card" |}
           seed_world seed_world
           (insufficient_error [check_entry seed_db (mk_line 1 10000)])).
  - vm_compute. reflexivity.
  - right. reflexivity.
Defined.

(** C7.  When the user exists, every product is found and covered by the
    stock it has at the check, and the reservation then fails, the handler
    throws the error of the reservation (run here against the store as the
    request finds it), the order row exists with status 'failed' (its
    payment_status still 'pending'), the payment gateway has not been
    called, and no stock has changed; the error handler answers the error
    with status 500, code INTERNAL_ERROR and the error's message. *)
Theorem reservation_failure_marks_failed
    (draw : gateway_draw) (req : order_request) (w : world) (u : user)
    (e : js_error) :
  users (w_db w) !! userId req = Some u ->
  Forall (fun item =>
            exists p, products (w_db w) !! productId item = Some p
                      /\ quantity item <= stock_quantity p) (items req) ->
  fst (reserveInventory (next_order_id (w_db w)) (items req) w) = Thrown e ->
  exists w' o,
    create_order draw req w = (Thrown e, w')
    /\ orders (w_db w') !! next_order_id (w_db w) = Some o
    /\ status o = "failed"
    /\ payment_status o = "pending"
    /\ w_payments w' = w_payments w
    /\ products (w_db w') = products (w_db w)
    /\ (forall NODE_ENV,
          let response := errorHandler NODE_ENV e in
          fst response = 500
          /\ get_prop "code" (get_prop "error" (snd response)) = JStr "INTERNAL_ERROR"
          /\ get_prop "message" (get_prop "error" (snd response))
             = JStr (err_message e)).
Proof.
  intros Hu Hitems Hfail.
  destruct (reserveInventory_thrown _ _ _ _ Hfail) as [id [Hid ->]].
  destruct (served_items _ _ Hitems) as [Hfound Hserved].
  pose proof (create_order_run draw req w) as Hrun. cbv zeta in Hrun.
  rewrite Hu, Hfound, Hserved, Hid in Hrun. destruct Hrun as [c' Hrun].
  do 2 eexists. split; [exact Hrun|]. cbn [w_db w_payments].
  erewrite order_after_status_update by apply order_written_row.
  repeat split; reflexivity.
Qed.

(** 30 laptops twice in one request, out of 50: each line passes the check,
    the second decrement fails. *)
Lemma reservation_failure_marks_failed_witness :
  exists w' o,
    create_order (Approves "txn_1700000000000_k3x9q" "2023-11-14T22:13:20.000Z")
      {| userId := 3; items := [mk_line 1 30; mk_line 1 30];
         paymentMethod := "debit_card" |} seed_world
    = (Thrown (reserve_error 1), w')
    /\ orders (w_db w') !! next_order_id (w_db seed_world) = Some o
    /\ status o = "failed"
    /\ payment_status o = "pending"
    /\ w_payments w' = w_payments seed_world
    /\ products (w_db w') = products (w_db seed_world)
    /\ (forall NODE_ENV,
          let response := errorHandler NODE_ENV (reserve_error 1) in
          fst response = 500
          /\ get_prop "code" (get_prop "error" (snd response)) = JStr "INTERNAL_ERROR"
          /\ get_prop "message" (get_prop "error" (snd response))
             = JStr (err_message (reserve_error 1))).
Proof.
  apply (reservation_failure_marks_failed
           (Approves "txn_1700000000000_k3x9q" "2023-11-14T22:13:20.000Z")
           {| userId := 3; items := [mk_line 1 30; mk_line 1 30];
              paymentMethod := "debit_card" |} seed_world
           (mk_user "bob@example.com" "Bob Johnson") (reserve_error 1) eq_refl).
  - repeat constructor;
      (exists (mk_product "LAPTOP-001" "Premium Laptop" 129999 50);
       split; [reflexivity|simpl; lia]).
  - vm_compute. reflexivity.
Defined.

(** ** JSON.stringify and JSON.parse *)


Lemma stringify_obj props :
  stringify (JObj props) = Some (JsonObj (stringify_props props)).
Proof. reflexivity. Qed.

Lemma parse_obj members : parse (JsonObj members) = JObj (parse_members members).
Proof. reflexivity. Qed.

Lemma stringify_number_fixed x :
  stringify (parse (stringify_number x)) = Some (stringify_number x).
Proof.
  unfold stringify_number.
  destruct (is_finite x) eqn:Hfin; [|reflexivity].
  destruct (PrimFloat.is_zero x && get_sign x) eqn:Hz; simpl.
  - reflexivity.
  - unfold stringify_number. rewrite Hfin, Hz. reflexivity.
Qed.

(** What [JSON.stringify] wrote is a fixed point of parse-then-stringify. *)
Lemma stringify_parse v : forall j,
  stringify v = Some j -> stringify (parse j) = Some j.
Proof.
  induction v as [| |b|x|s|iso|elems IH|props IH] using jsval_nested_ind;
    intros j Hj; try discriminate;
    try (injection Hj as <-; reflexivity).
  - injection Hj as <-. apply stringify_number_fixed.
  - injection Hj as <-. simpl. do 2 f_equal.
    induction IH as [|e l He _ IHl]; [reflexivity|]. simpl. f_equal; [|exact IHl].
    destruct (stringify e) as [je|] eqn:Hje; simpl; [|reflexivity].
    rewrite (He je eq_refl). reflexivity.
  - rewrite stringify_obj in Hj. injection Hj as <-.
    rewrite parse_obj, stringify_obj. do 2 f_equal.
    induction IH as [|[k e] l He _ IHl]; [reflexivity|]. simpl in *.
    destruct (stringify e) as [je|] eqn:Hje; [|exact IHl].
    simpl. rewrite (He je eq_refl), IHl. reflexivity.
Qed.

(** A value without [Date], [undefined], NaN, infinity and minus zero comes
    back from the cache as it went in. *)
Lemma parse_stringify_pure v :
  json_pure v = true -> exists j, stringify v = Some j /\ parse j = v.
Proof.
  induction v as [| |b|x|s|iso|elems IH|props IH] using jsval_nested_ind;
    intros Hpure; try discriminate; try (eexists; split; reflexivity).
  - simpl in Hpure. apply andb_true_iff in Hpure as [Hfin Hz].
    apply negb_true_iff in Hz.
    exists (JsonNum x). simpl. unfold stringify_number. rewrite Hfin, Hz.
    split; reflexivity.
  - exists (JsonArr (map (fun e => default JsonNull (stringify e)) elems)).
    split; [reflexivity|]. cbn [parse]. f_equal. cbn [json_pure] in Hpure.
    induction IH as [|e l He _ IHl]; [reflexivity|]. cbn [map forallb] in *.
    apply andb_true_iff in Hpure as [Hp1 Hp2].
    destruct (He Hp1) as [je [Hje Hparse]]. rewrite Hje. simpl.
    rewrite Hparse, (IHl Hp2). reflexivity.
  - exists (JsonObj (stringify_props props)).
    split; [apply stringify_obj|]. rewrite parse_obj. f_equal.
    cbn [json_pure] in Hpure.
    induction IH as [|[k e] l He _ IHl]; [reflexivity|].
    cbn [stringify_props forallb snd] in *.
    apply andb_true_iff in Hpure as [Hp1 Hp2].
    destruct (He Hp1) as [je [Hje Hparse]]. rewrite Hje. simpl.
    rewrite Hparse, (IHl Hp2). reflexivity.
Qed.

(** ** GET /:id *)

(** A read that misses the cache and finds the order. *)
Lemma get_order_from_store driver orderId w row rest :
  w_cache w !! ("order:" +:+ pretty orderId) = None ->
  order_rows driver (w_db w) orderId = row :: rest ->
  let order :=
    JObj (assign_prop "items" (JArr (map JObj (item_rows driver (w_db w) orderId))) row) in
  get_order driver (Some orderId) w
  = (Returned (200, JObj [("order", order); ("cached", JBool false)]),
     set_cache
       (<["order:" +:+ pretty orderId :=
            JsonObj (stringify_props
                       (assign_prop "items"
                          (JArr (map JObj (item_rows driver (w_db w) orderId))) row))]>
          (w_cache w)) w).
Proof.
  intros Hmiss Hrow order. unfold get_order.
  unfold bind at 1. unfold cache.get at 1, withSpan at 1. rewrite Hmiss.
  cbn [truthy].
  unfold bind at 1. rewrite query_select_run, Hrow.
  unfold bind at 1. rewrite query_select_run.
  unfold bind at 1, cache.set at 1, withSpan at 1. rewrite stringify_obj.
  reflexivity.
Qed.

(** A read that finds the text of an object under the key. *)
Lemma get_order_from_cache driver orderId w members :
  w_cache w !! ("order:" +:+ pretty orderId) = Some (JsonObj members) ->
  get_order driver (Some orderId) w
  = (Returned (200, JObj [("order", parse (JsonObj members));
                          ("cached", JBool true)]), w).
Proof.
  intros Hhit. unfold get_order.
  unfold bind at 1. unfold cache.get at 1, withSpan at 1. rewrite Hhit.
  rewrite parse_obj. reflexivity.
Qed.

(** C8 (as amended).  For an order that exists and is not in the cache yet,
    a first read is served from the store and a second read from the
    cache; the two response bodies, as sent on the wire, carry the same
    [order] member and differ in the [cached] flag only.  The value that
    the second read takes from the cache is the parse of the text that the
    first read stored; it is the value read from the store whenever that
    value holds no [Date] (and no undefined, NaN, infinity or minus zero). *)
Theorem get_order_same_content
    (driver : pg_rows) (orderId : Z) (w : world)
    (row : list (string * jsval)) (rest : list (list (string * jsval))) :
  w_cache w !! ("order:" +:+ pretty orderId) = None ->
  order_rows driver (w_db w) orderId = row :: rest ->
  exists fresh cached w1 text,
    get_order driver (Some orderId) w
    = (Returned (200, JObj [("order", fresh); ("cached", JBool false)]), w1)
    /\ get_order driver (Some orderId) w1
       = (Returned (200, JObj [("order", cached); ("cached", JBool true)]), w1)
    /\ w_cache w1 !! ("order:" +:+ pretty orderId) = Some text
    /\ stringify fresh = Some text
    /\ cached = parse text
    /\ wire_body (200, JObj [("order", fresh); ("cached", JBool false)])
       = Some (JsonObj [("order", text); ("cached", JsonBool false)])
    /\ wire_body (200, JObj [("order", cached); ("cached", JBool true)])
       = Some (JsonObj [("order", text); ("cached", JsonBool true)])
    /\ (json_pure fresh = true -> cached = fresh).
Proof.
  intros Hmiss Hrow.
  pose proof (get_order_from_store driver orderId w row rest Hmiss Hrow) as H1.
  cbv zeta in H1.
  set (props := assign_prop "items"
                  (JArr (map JObj (item_rows driver (w_db w) orderId))) row) in *.
  match type of H1 with _ = (_, ?w') => set (w1 := w') in * end.
  assert (Hhit : w_cache w1 !! ("order:" +:+ pretty orderId)
                 = Some (JsonObj (stringify_props props)))
    by (simpl; apply lookup_insert_eq).
  assert (Hfix : stringify (parse (JsonObj (stringify_props props)))
                 = Some (JsonObj (stringify_props props)))
    by (apply (stringify_parse (JObj props)); apply stringify_obj).
  exists (JObj props), (parse (JsonObj (stringify_props props))), w1,
         (JsonObj (stringify_props props)).
  split; [exact H1|].
  split; [apply get_order_from_cache; exact Hhit|].
  split; [exact Hhit|].
  split; [apply stringify_obj|].
  split; [reflexivity|].
  split; [reflexivity|].
  split.
  - unfold wire_body. cbn [snd]. rewrite stringify_obj. cbn [stringify_props].
    rewrite Hfix. reflexivity.
  - intros Hpure. destruct (parse_stringify_pure _ Hpure) as [j [Hj Hparse]].
    rewrite stringify_obj in Hj. injection Hj as <-. exact Hparse.
Qed.

(** The sample order, read twice. *)
Lemma get_order_same_content_witness :
  exists fresh cached w1 text,
    get_order sample_driver (Some 1) seed_world
    = (Returned (200, JObj [("order", fresh); ("cached", JBool false)]), w1)
    /\ get_order sample_driver (Some 1) w1
       = (Returned (200, JObj [("order", cached); ("cached", JBool true)]), w1)
    /\ w_cache w1 !! ("order:" +:+ pretty 1) = Some text
    /\ stringify fresh = Some text
    /\ cached = parse text
    /\ wire_body (200, JObj [("order", fresh); ("cached", JBool false)])
       = Some (JsonObj [("order", text); ("cached", JsonBool false)])
    /\ wire_body (200, JObj [("order", cached); ("cached", JBool true)])
       = Some (JsonObj [("order", text); ("cached", JsonBool true)])
    /\ (json_pure fresh = true -> cached = fresh).
Proof.
  apply (get_order_same_content sample_driver 1 seed_world sample_order_row []);
    reflexivity.
Defined.

(** C8, the claim as stated fails: the value that comes back from the cache
    is not the value that was read from the store.  The row read from the
    store holds a [Date] in [created_at]; the value parsed from the cache
    holds the ISO text of that date, a string. *)
Lemma get_order_cached_value_differs :
  exists fresh cached w1,
    get_order sample_driver (Some 1) seed_world
    = (Returned (200, JObj [("order", fresh); ("cached", JBool false)]), w1)
    /\ get_order sample_driver (Some 1) w1
       = (Returned (200, JObj [("order", cached); ("cached", JBool true)]), w1)
    /\ get_prop "created_at" fresh = JDate "2023-11-14T22:13:20.000Z"
    /\ get_prop "created_at" cached = JStr "2023-11-14T22:13:20.000Z"
    /\ cached <> fresh.
Proof.
  do 3 eexists.
  split; [vm_compute; reflexivity|].
  split; [vm_compute; reflexivity|].
  split; [reflexivity|]. split; [reflexivity|].
  intros H. apply (f_equal (get_prop "created_at")) in H.
  vm_compute in H. discriminate H.
Qed.

(** ** errorHandler *)

(** C9 (as amended).  The body of every error response has, under [error],
    a [message], the error's own, and a [code], the error's own or
    INTERNAL_ERROR when the error has none (or an empty one).  The status
    is 422, 409, 404 or 400 for the codes PAYMENT_FAILED,
    INSUFFICIENT_INVENTORY, NOT_FOUND and VALIDATION_ERROR; for any other
    code or none it is the error's own [statusCode] when it has one (other
    than 0), and 500 when it has none.  The body has a [stack] exactly when
    NODE_ENV is 'development', so never in production. *)
Theorem errorHandler_response (NODE_ENV : option string) (err : js_error) :
  let response := errorHandler NODE_ENV err in
  let error := get_prop "error" (snd response) in
  let listed := ["PAYMENT_FAILED"; "INSUFFICIENT_INVENTORY"; "NOT_FOUND";
                 "VALIDATION_ERROR"] in
  get_prop "message" error = JStr (err_message err)
  /\ get_prop "code" error = JStr (or_text (err_code err) "INTERNAL_ERROR")
  /\ (err_code err = None -> get_prop "code" error = JStr "INTERNAL_ERROR")
  /\ (forall code, err_code err = Some code -> code <> "" ->
        get_prop "code" error = JStr code)
  /\ (err_code err = Some "PAYMENT_FAILED" -> fst response = 422)
  /\ (err_code err = Some "INSUFFICIENT_INVENTORY" -> fst response = 409)
  /\ (err_code err = Some "NOT_FOUND" -> fst response = 404)
  /\ (err_code err = Some "VALIDATION_ERROR" -> fst response = 400)
  /\ ((forall code, err_code err = Some code -> ~ In code listed) ->
        (forall sc, err_statusCode err = Some sc -> sc <> 0 -> fst response = sc)
        /\ (err_statusCode err = Some 0 -> fst response = 500)
        /\ (err_statusCode err = None -> fst response = 500))
  /\ (has_prop "stack" error = true <-> NODE_ENV = Some "development")
  /\ (NODE_ENV = Some "production" -> has_prop "stack" error = false).
Proof.
  cbv zeta. unfold errorHandler. cbn [fst snd get_prop lookup_prop String.eqb].
  simpl.
  split; [reflexivity|]. split; [reflexivity|].
  split. { intros H. rewrite H. reflexivity. }
  split. { intros code H Hne. rewrite H. simpl.
           destruct (String.eqb_spec code ""); [contradiction|reflexivity]. }
  unfold code_is.
  split. { intros H. rewrite H. reflexivity. }
  split. { intros H. rewrite H. reflexivity. }
  split. { intros H. rewrite H. reflexivity. }
  split. { intros H. rewrite H. reflexivity. }
  split.
  { intros Hother.
    assert (Hst :
      (if match err_code err with Some c => String.eqb c "PAYMENT_FAILED" | None => false end
       then 422
       else if match err_code err with Some c => String.eqb c "INSUFFICIENT_INVENTORY" | None => false end
       then 409
       else if match err_code err with Some c => String.eqb c "NOT_FOUND" | None => false end
       then 404
       else if match err_code err with Some c => String.eqb c "VALIDATION_ERROR" | None => false end
       then 400
       else or_number (err_statusCode err) 500)
      = or_number (err_statusCode err) 500).
    { destruct (err_code err) as [c|]; [|reflexivity].
      specialize (Hother c eq_refl). simpl in Hother.
      destruct (String.eqb_spec c "PAYMENT_FAILED") as [->|_]; [tauto|].
      destruct (String.eqb_spec c "INSUFFICIENT_INVENTORY") as [->|_]; [tauto|].
      destruct (String.eqb_spec c "NOT_FOUND") as [->|_]; [tauto|].
      destruct (String.eqb_spec c "VALIDATION_ERROR") as [->|_]; [tauto|].
      reflexivity. }
    rewrite Hst. unfold or_number.
    split; [|split].
    - intros sc -> Hsc. destruct (Z.eqb_spec sc 0); [contradiction|reflexivity].
    - intros ->. reflexivity.
    - intros ->. reflexivity. }
  split.
  - destruct NODE_ENV as [env|]; [|split; discriminate].
    destruct (String.eqb_spec env "development") as [->|Hne]; simpl.
    + split; reflexivity.
    + split; [discriminate|]. intros [= H]. contradiction.
  - intros ->. reflexivity.
Qed.

(** C9, the claim as stated fails: the status is not a function of the code
    alone.  The error that Express raises for a path parameter it cannot
    decode carries [statusCode] 400 and no code; the response has status
    400, where the four codes, else 500, would give 500. *)
Lemma errorHandler_status_from_statusCode :
  err_code decode_param_error = None
  /\ err_statusCode decode_param_error = Some 400
  /\ status_of_code (err_code decode_param_error) = 500
  /\ fst (errorHandler (Some "production") decode_param_error) = 400
  /\ get_prop "code"
       (get_prop "error" (snd (errorHandler (Some "production") decode_param_error)))
     = JStr "INTERNAL_ERROR".
Proof. repeat split; reflexivity. Qed.


(** * Further properties *)

(** ** The inventory service *)

Lemma covered_iff d items :
  existsb (insufficient d) items = false
  <-> Forall (fun item =>
                exists p, products d !! productId item = Some p
                          /\ quantity item <= stock_quantity p) items.
Proof.
  induction items as [|item rest IH]; simpl.
  - split; [constructor|reflexivity].
  - rewrite orb_false_iff, IH, Forall_cons. unfold insufficient at 1.
    destruct (products d !! productId item) as [p|].
    + rewrite negb_false_iff. split.
      * intros [H1 H2]. split; [|exact H2]. exists p. split; [reflexivity|lia].
      * intros [[p' [[= <-] Hq]] H2]. split; [lia|exact H2].
    + split; [intros [H _]; discriminate|intros [[p' [H _]] _]; discriminate].
Qed.

(** X1.  [checkInventory] always returns and leaves the world as it was; its
    result has one entry per item, in the order of the items, and
    [available] is true exactly when every item names a product that exists
    and whose stock covers the quantity of that item (so also for no item
    at all). *)
Theorem checkInventory_available_iff (items : list order_line) (w : world) :
  exists r,
    checkInventory items w = (Returned r, w)
    /\ length (cr_items r) = length items
    /\ (forall i item,
          items !! i = Some item ->
          exists entry,
            cr_items r !! i = Some entry
            /\ get_prop "productId" entry = JNum (number_of_Z (productId item)))
    /\ (cr_available r = true
        <-> Forall (fun item =>
                      exists p, products (w_db w) !! productId item = Some p
                                /\ quantity item <= stock_quantity p) items).
Proof.
  eexists. split; [apply checkInventory_run|]. cbn [cr_items cr_available].
  split; [apply length_map|]. split.
  - intros i item Hi. exists (check_entry (w_db w) item).
    rewrite list_lookup_fmap, Hi. split; [reflexivity|].
    unfold check_entry. destruct (products (w_db w) !! productId item); reflexivity.
  - rewrite available_check_entries, negb_true_iff. apply covered_iff.
Qed.

Lemma set_products_same d : set_products (products d) d = d.
Proof. destruct d; reflexivity. Qed.

(** The loop of [reserveInventory] inside a transaction, with the cache it
    leaves and, when it throws, the lines it had processed. *)
Lemma reserve_loop_trace items : forall w d,
  w_tx w = Some d ->
  match reserve_stock items (products d) with
  | inr ps' =>
      reserve_loop items w
      = (Returned tt,
         mk_world (w_db w) (Some (set_products ps' d))
                  (foldl invalidate (w_cache w) items) (w_payments w))
  | inl id =>
      exists done item rest ps1,
        items = done ++ item :: rest
        /\ productId item = id
        /\ reserve_stock done (products d) = inr ps1
        /\ fst (update_reserve (quantity item) id (set_products ps1 d)) = []
        /\ reserve_loop items w
           = (Thrown (reserve_error id),
              mk_world (w_db w) (Some (set_products ps1 d))
                       (foldl invalidate (w_cache w) done) (w_payments w))
  end.
Proof.
  induction items as [|item rest IH]; intros w d Htx.
  - simpl. unfold ret. rewrite set_products_same.
    destruct w as [db tx c pay]; simpl in *. subst tx. reflexivity.
  - cbn [reserve_stock].
    destruct (products d !! productId item) as [p|] eqn:Hp.
    + destruct (stock_quantity p >=? quantity item) eqn:Hge.
      * rewrite (reserve_loop_cons_ok _ _ _ _ _ Htx Hp Hge).
        match goal with |- context [reserve_loop rest ?w2] =>
          specialize (IH w2 _ eq_refl) end.
        cbn [products set_products] in IH.
        destruct (reserve_stock rest _) as [id|ps'].
        -- destruct IH as [done [bad [rest' [ps1 [Hsplit [Hid [Hdone [Hrows Hloop]]]]]]]].
           exists (item :: done), bad, rest', ps1.
           split; [rewrite Hsplit; reflexivity|]. split; [exact Hid|].
           split; [simpl; rewrite Hp, Hge; exact Hdone|].
           split; [exact Hrows|exact Hloop].
        -- exact IH.
      * exists [], item, rest, (products d).
        rewrite set_products_same. repeat split.
        -- unfold update_reserve. rewrite Hp, Hge. reflexivity.
        -- rewrite (reserve_loop_cons_fail item rest w d Htx) by (rewrite Hp; exact Hge).
           destruct w as [db tx c pay]; simpl in *. reflexivity.
    + exists [], item, rest, (products d).
      rewrite set_products_same. repeat split.
      * unfold update_reserve. rewrite Hp. reflexivity.
      * rewrite (reserve_loop_cons_fail item rest w d Htx) by (rewrite Hp; exact I).
        destruct w as [db tx c pay]; simpl in *. reflexivity.
Qed.

Lemma reserveInventory_trace orderId items w :
  match reserve_stock items (products (w_db w)) with
  | inr ps' =>
      reserveInventory orderId items w
      = (Returned {| sr_success := true; sr_orderId := orderId;
                     sr_items := length items |},
         mk_world (set_products ps' (w_db w)) None
                  (foldl invalidate (w_cache w) items) (w_payments w))
  | inl id =>
      exists done item rest ps1,
        items = done ++ item :: rest
        /\ productId item = id
        /\ reserve_stock done (products (w_db w)) = inr ps1
        /\ fst (update_reserve (quantity item) id (set_products ps1 (w_db w))) = []
        /\ reserveInventory orderId items w
           = (Thrown (reserve_error id),
              mk_world (w_db w) None (foldl invalidate (w_cache w) done)
                       (w_payments w))
  end.
Proof.
  pose proof (reserve_loop_trace items (set_tx (Some (w_db w)) w) (w_db w) eq_refl)
    as H.
  unfold reserveInventory, withSpan, getClient.
  rewrite bind_ret_l. unfold try_finally, try_catch.
  rewrite (bind_returned client_BEGIN _ w tt (set_tx (Some (w_db w)) w) eq_refl).
  destruct (reserve_stock items (products (w_db w))) as [id|ps'].
  - destruct H as [done [bad [rest [ps1 [Hsplit [Hid [Hdone [Hrows H]]]]]]]].
    exists done, bad, rest, ps1. repeat (split; [assumption|]).
    rewrite (bind_thrown _ _ _ _ _ H). reflexivity.
  - rewrite (bind_returned _ _ _ _ _ H). reflexivity.
Qed.

Lemma reserve_stock_lookup items : forall (ps ps' : gmap Z product),
  reserve_stock items ps = inr ps' ->
  forall id,
    ps' !! id
    = (fun p => set_stock (stock_quantity p - requested items id) p) <$> ps !! id.
Proof.
  induction items as [|item rest IH]; intros ps ps' Hres id; simpl in Hres.
  - injection Hres as <-. simpl. destruct (ps !! id) as [p|]; simpl; [|reflexivity].
    rewrite Z.sub_0_r, set_stock_same. reflexivity.
  - destruct (ps !! productId item) as [p|] eqn:Hp; [|discriminate].
    destruct (stock_quantity p >=? quantity item); [|discriminate].
    rewrite (IH _ _ Hres id). simpl.
    destruct (Z.eqb_spec (productId item) id) as [<-|Hne].
    + rewrite lookup_insert_eq, Hp. simpl. f_equal. unfold set_stock. simpl.
      f_equal. lia.
    + rewrite lookup_insert_ne by exact Hne. reflexivity.
Qed.


(** X2.  When [reserveInventory] returns, the stock of every product has
    gone down by the quantity that the items request of it, all lines
    together; no product is added or removed, sku, name and price are kept,
    and the other tables are as before.  The result counts the items. *)
Theorem reserveInventory_effect
    (orderId : Z) (items : list order_line) (w w' : world) (r : stock_result) :
  reserveInventory orderId items w = (Returned r, w') ->
  r = {| sr_success := true; sr_orderId := orderId; sr_items := length items |}
  /\ (forall id,
        products (w_db w') !! id
        = (fun p => set_stock (stock_quantity p - requested items id) p)
            <$> products (w_db w) !! id)
  /\ users (w_db w') = users (w_db w)
  /\ orders (w_db w') = orders (w_db w)
  /\ order_items (w_db w') = order_items (w_db w)
  /\ w_tx w' = None
  /\ w_payments w' = w_payments w.
Proof.
  intros Hrun. pose proof (reserveInventory_trace orderId items w) as H.
  destruct (reserve_stock items (products (w_db w))) as [id|ps'] eqn:Hres.
  - destruct H as [done [bad [rest [ps1 [_ [_ [_ [_ H]]]]]]]].
    rewrite H in Hrun. discriminate.
  - rewrite H in Hrun. injection Hrun as <- <-.
    split; [reflexivity|]. split; [|repeat split; reflexivity].
    intros id. simpl. apply (reserve_stock_lookup _ _ _ Hres).
Qed.

(** Two lines of laptops, 2 and 3, against the seeded stock of 50. *)
Lemma reserveInventory_effect_witness :
  {| sr_success := true; sr_orderId := 7; sr_items := 2 |}
  = {| sr_success := true; sr_orderId := 7;
       sr_items := length [mk_line 1 2; mk_line 1 3] |}
  /\ forall id,
       products
         (w_db (snd (reserveInventory 7 [mk_line 1 2; mk_line 1 3] seed_world)))
       !! id
       = (fun p =>
            set_stock
              (stock_quantity p - requested [mk_line 1 2; mk_line 1 3] id) p)
           <$> products (w_db seed_world) !! id.
Proof.
  pose proof (reserveInventory_effect 7 [mk_line 1 2; mk_line 1 3] seed_world
                (snd (reserveInventory 7 [mk_line 1 2; mk_line 1 3] seed_world))
                {| sr_success := true; sr_orderId := 7; sr_items := 2 |}) as H.
  destruct H as [Hr [Hp _]].
  - vm_compute. reflexivity.
  - split; [exact Hr|exact Hp].
Defined.


Lemma requested_cons item rest id :
  requested (item :: rest) id
  = if productId item =? id then quantity item + requested rest id
    else requested rest id.
Proof. reflexivity. Qed.

Lemma requested_nonneg items id :
  Forall (fun item => 0 <= quantity item) items -> 0 <= requested items id.
Proof.
  induction 1 as [|item rest Hq _ IH]; simpl; [lia|].
  destruct (productId item =? id); lia.
Qed.

Lemma requested_nonzero items id :
  requested items id <> 0 -> exists item, item ∈ items /\ productId item = id.
Proof.
  induction items as [|item rest IH]; simpl; [congruence|].
  destruct (Z.eqb_spec (productId item) id) as [Heq|Hne].
  - intros _. exists item. split; [left|exact Heq].
  - intros H. destruct (IH H) as [x [Hx Hid]]. exists x. split; [right; exact Hx|exact Hid].
Qed.

(** With quantities that are not negative, the UPDATEs of a reservation all
    match a row exactly when every product exists and holds what the items
    request of it together. *)
Lemma reserve_stock_ok_iff items : forall ps : gmap Z product,
  Forall (fun item => 0 <= quantity item) items ->
  (exists ps', reserve_stock items ps = inr ps')
  <-> Forall (fun item =>
                exists p, ps !! productId item = Some p
                          /\ requested items (productId item) <= stock_quantity p)
             items.
Proof.
  induction items as [|item rest IH]; intros ps Hq.
  - split; [constructor|]. intros _. exists ps. reflexivity.
  - inversion Hq as [|? ? Hq0 Hqrest]; subst.
    pose proof (requested_nonneg rest (productId item) Hqrest) as Hnn.
    cbn [reserve_stock]. rewrite Forall_forall. split.
    + intros [ps' Hres].
      destruct (ps !! productId item) as [p|] eqn:Hp; [|discriminate].
      destruct (stock_quantity p >=? quantity item) eqn:Hge; [|discriminate].
      assert (Hrest := proj1 (IH _ Hqrest) (ex_intro _ ps' Hres)).
      rewrite Forall_forall in Hrest.
      assert (Hhead : requested rest (productId item)
                      <= stock_quantity p - quantity item).
      { destruct (Z.eq_dec (requested rest (productId item)) 0) as [->|Hnz]; [lia|].
        destruct (requested_nonzero _ _ Hnz) as [x [Hx Hid]].
        destruct (Hrest x Hx) as [p1 [Hp1 Hle]]. rewrite Hid in Hp1, Hle.
        rewrite lookup_insert_eq in Hp1. injection Hp1 as <-. exact Hle. }
      intros x Hx. rewrite requested_cons.
      destruct (Z.eqb_spec (productId item) (productId x)) as [Heq|Hne].
      * exists p. rewrite <- Heq. split; [exact Hp|lia].
      * apply elem_of_cons in Hx as [->|Hx]; [congruence|].
        destruct (Hrest x Hx) as [p1 [Hp1 Hle]].
        rewrite lookup_insert_ne in Hp1 by exact Hne. eauto.
    + intros Hall.
      destruct (Hall item (proj2 (elem_of_cons _ _ _) (or_introl eq_refl))) as [p [Hp Hle]].
      rewrite requested_cons, Z.eqb_refl in Hle.
      rewrite Hp.
      assert ((stock_quantity p >=? quantity item) = true) as -> by lia.
      apply (IH _ Hqrest). rewrite Forall_forall. intros x Hx.
      destruct (Z.eq_dec (productId item) (productId x)) as [Heq|Hne].
      * rewrite <- Heq, lookup_insert_eq. eexists. split; [reflexivity|].
        simpl. lia.
      * destruct (Hall x (proj2 (elem_of_cons _ _ _) (or_intror Hx))) as [p1 [Hp1 Hle1]].
        rewrite requested_cons in Hle1.
        destruct (Z.eqb_spec (productId item) (productId x)); [congruence|].
        rewrite lookup_insert_ne by exact Hne. eauto.
Qed.

(** X3.  With quantities that are not negative, [reserveInventory] returns
    exactly when every item names a product that exists and whose stock
    covers what all the items together request of that product; otherwise
    it throws. *)
Theorem reserveInventory_returns_iff
    (orderId : Z) (items : list order_line) (w : world) :
  Forall (fun item => 0 <= quantity item) items ->
  (is_returned (fst (reserveInventory orderId items w)) = true
   <-> Forall (fun item =>
                 exists p, products (w_db w) !! productId item = Some p
                           /\ requested items (productId item) <= stock_quantity p)
              items).
Proof.
  intros Hq. rewrite <- (reserve_stock_ok_iff items _ Hq).
  pose proof (reserveInventory_trace orderId items w) as H.
  destruct (reserve_stock items (products (w_db w))) as [id|ps'].
  - destruct H as [done [bad [rest [ps1 [_ [_ [_ [_ H]]]]]]]]. rewrite H. simpl.
    split; [discriminate|]. intros [ps' Hps']. discriminate.
  - rewrite H. simpl. split; [eauto|reflexivity].
Qed.

(** 30 and 20 laptops in two lines take the whole stock of 50. *)
Lemma reserveInventory_returns_iff_witness :
  is_returned (fst (reserveInventory 1 [mk_line 1 30; mk_line 1 20] seed_world)) = true
  <-> Forall (fun item =>
                exists p, products (w_db seed_world) !! productId item = Some p
                          /\ requested [mk_line 1 30; mk_line 1 20] (productId item)
                             <= stock_quantity p)
             [mk_line 1 30; mk_line 1 20].
Proof.
  apply (reserveInventory_returns_iff 1 [mk_line 1 30; mk_line 1 20] seed_world).
  repeat constructor; simpl; lia.
Defined.

Lemma glob_star key : cache.glob "*" key = true.
Proof.
  induction key as [|c key IH]; [reflexivity|].
  change (cache.glob "*" (String c key))
    with (cache.glob "" (String c key) || cache.glob "*" key).
  rewrite IH. apply orb_true_r.
Qed.

Lemma glob_products rest : cache.glob "products:*" ("products:" +:+ rest) = true.
Proof. apply (glob_star rest). Qed.

Lemma invalidate_lookup_Some c item key v :
  invalidate c item !! key = Some v
  <-> c !! key = Some v
      /\ key <> product_key (productId item)
      /\ cache.glob "products:*" key = false.
Proof.
  unfold invalidate. rewrite map_lookup_filter_Some, lookup_delete_Some. simpl.
  split; [intros [[H1 H2] H3]|intros [H1 [H2 H3]]]; repeat split; auto.
Qed.

Lemma invalidated_only_deletes items : forall c key v,
  foldl invalidate c items !! key = Some v -> c !! key = Some v.
Proof.
  induction items as [|item rest IH]; intros c key v H; simpl in H; [exact H|].
  apply IH in H. apply invalidate_lookup_Some in H. tauto.
Qed.

Lemma invalidated_product_key items : forall c item,
  item ∈ items -> foldl invalidate c items !! product_key (productId item) = None.
Proof.
  induction items as [|x rest IH]; intros c item Hin; [inversion Hin|].
  simpl. apply elem_of_cons in Hin as [->|Hin]; [|apply IH; exact Hin].
  destruct (foldl invalidate (invalidate c x) rest !! product_key (productId x))
    as [v|] eqn:H; [|reflexivity].
  apply invalidated_only_deletes, invalidate_lookup_Some in H. tauto.
Qed.

Lemma invalidated_pattern items c key :
  items <> [] -> cache.glob "products:*" key = true ->
  foldl invalidate c items !! key = None.
Proof.
  destruct items as [|x rest]; [congruence|]. intros _ Hglob. simpl.
  destruct (foldl invalidate (invalidate c x) rest !! key) as [v|] eqn:H;
    [|reflexivity].
  apply invalidated_only_deletes, invalidate_lookup_Some in H.
  destruct H as [_ [_ H]]. congruence.
Qed.

Lemma invalidated_other items : forall c key,
  cache.glob "products:*" key = false ->
  (forall item, item ∈ items -> key <> product_key (productId item)) ->
  foldl invalidate c items !! key = c !! key.
Proof.
  induction items as [|x rest IH]; intros c key Hglob Hkeys; [reflexivity|].
  simpl. rewrite IH; [|exact Hglob|intros item Hin; apply Hkeys; right; exact Hin].
  apply option_eq. intros v. rewrite invalidate_lookup_Some.
  pose proof (Hkeys x (proj2 (elem_of_cons _ _ _) (or_introl eq_refl))). tauto.
Qed.


(** X4.  Whenever [reserveInventory] throws, the items split at a first line
    whose conditional decrement matched no row after the lines before it had
    been decremented in the transaction; the error names that line's
    product and carries no code.  The store is the one before the call,
    but the cache stays as the processed lines left it: their product keys
    are gone although their stock is unchanged. *)
Theorem reserveInventory_throws_at_first_failure
    (orderId : Z) (items : list order_line) (w w' : world) (e : js_error) :
  reserveInventory orderId items w = (Thrown e, w') ->
  exists done item rest wt,
    items = done ++ item :: rest
    /\ reserve_loop done (snd (client_BEGIN w)) = (Returned tt, wt)
    /\ fst (client_query (update_reserve (quantity item) (productId item)) wt)
       = Returned []
    /\ e = reserve_error (productId item)
    /\ err_code e = None
    /\ w_db w' = w_db w
    /\ w_tx w' = None
    /\ w_cache w' = w_cache wt
    /\ (forall line, line ∈ done ->
          w_cache w' !! product_key (productId line) = None).
Proof.
  intros Hrun. pose proof (reserveInventory_trace orderId items w) as H.
  destruct (reserve_stock items (products (w_db w))) as [id|ps'].
  2:{ rewrite H in Hrun. discriminate. }
  destruct H as [done [bad [rest [ps1 [Hsplit [Hid [Hdone [Hrows H]]]]]]]].
  rewrite H in Hrun. injection Hrun as <- <-.
  pose proof (reserve_loop_trace done (set_tx (Some (w_db w)) w) (w_db w) eq_refl)
    as Hloop.
  rewrite Hdone in Hloop.
  eexists done, bad, rest, _. split; [exact Hsplit|].
  split; [exact Hloop|].
  split.
  { rewrite (client_query_in_tx _ _ (set_products ps1 (w_db w))) by reflexivity.
    simpl. rewrite Hid, Hrows. reflexivity. }
  rewrite Hid. repeat (split; [reflexivity|]).
  intros line Hline. simpl. apply invalidated_product_key. exact Hline.
Qed.

(** 30 laptops twice, then a phone: the second line fails. *)
Lemma reserveInventory_throws_at_first_failure_witness :
  exists done item rest wt,
    [mk_line 1 30; mk_line 1 30; mk_line 2 1] = done ++ item :: rest
    /\ reserve_loop done (snd (client_BEGIN seed_world)) = (Returned tt, wt)
    /\ fst (client_query (update_reserve (quantity item) (productId item)) wt)
       = Returned []
    /\ reserve_error 1 = reserve_error (productId item)
    /\ err_code (reserve_error 1) = None
    /\ w_db (set_tx None seed_world) = w_db seed_world
    /\ w_tx (set_tx None seed_world) = None
    /\ w_cache (set_tx None seed_world) = w_cache wt
    /\ (forall line, line ∈ done ->
          w_cache (set_tx None seed_world) !! product_key (productId line) = None).
Proof.
  apply (reserveInventory_throws_at_first_failure 1
           [mk_line 1 30; mk_line 1 30; mk_line 2 1] seed_world
           (set_tx None seed_world) (reserve_error 1)).
  vm_compute. reflexivity.
Defined.

Lemma release_loop_trace items : forall w d,
  w_tx w = Some d ->
  release_loop items w
  = (Returned tt,
     mk_world (w_db w) (Some (set_products (release_stock items (products d)) d))
              (foldl invalidate (w_cache w) items) (w_payments w)).
Proof.
  induction items as [|item rest IH]; intros w d Htx.
  - simpl. unfold ret. rewrite set_products_same.
    destruct w as [db tx c pay]; simpl in *. subst tx. reflexivity.
  - rewrite (release_loop_cons _ _ _ _ Htx). cbn [release_stock].
    erewrite IH by reflexivity. reflexivity.
Qed.

Lemma releaseInventory_trace orderId items w :
  releaseInventory orderId items w
  = (Returned {| sr_success := true; sr_orderId := orderId;
                 sr_items := length items |},
     mk_world (set_products (release_stock items (products (w_db w))) (w_db w))
              None (foldl invalidate (w_cache w) items) (w_payments w)).
Proof.
  pose proof (release_loop_trace items (set_tx (Some (w_db w)) w) (w_db w) eq_refl)
    as H.
  unfold releaseInventory, withSpan, getClient.
  rewrite bind_ret_l. unfold try_finally, try_catch.
  rewrite (bind_returned client_BEGIN _ w tt (set_tx (Some (w_db w)) w) eq_refl).
  rewrite (bind_returned _ _ _ _ _ H). reflexivity.
Qed.


(** X6.  When [reserveInventory] returns, the cache holds no entry under the
    key of any reserved product and, when there was at least one item, no
    entry under a key that matches [products:*]; a reservation deletes cache
    entries and writes none, and every other key keeps its entry. *)
Theorem reserveInventory_invalidates_cache
    (orderId : Z) (items : list order_line) (w w' : world) (r : stock_result) :
  reserveInventory orderId items w = (Returned r, w') ->
  (forall item, item ∈ items ->
     w_cache w' !! ("product:" +:+ pretty (productId item)) = None)
  /\ (items <> [] -> forall name, w_cache w' !! ("products:" +:+ name) = None)
  /\ (forall key v, w_cache w' !! key = Some v -> w_cache w !! key = Some v)
  /\ (forall key,
        cache.glob "products:*" key = false ->
        (forall item, item ∈ items -> key <> "product:" +:+ pretty (productId item)) ->
        w_cache w' !! key = w_cache w !! key).
Proof.
  intros Hrun. pose proof (reserveInventory_trace orderId items w) as H.
  destruct (reserve_stock items (products (w_db w))) as [id|ps'].
  { destruct H as [done [bad [rest [ps1 [_ [_ [_ [_ H]]]]]]]].
    rewrite H in Hrun. discriminate. }
  rewrite H in Hrun. injection Hrun as Hr <-. simpl.
  split; [intros item Hin; apply (invalidated_product_key _ _ _ Hin)|].
  split; [intros Hne name; apply invalidated_pattern;
          [exact Hne|apply glob_products]|].
  split; [intros key v; apply invalidated_only_deletes|].
  intros key Hglob Hkeys. apply invalidated_other; assumption.
Qed.

(** A reservation of laptops with four entries in the cache. *)
Lemma reserveInventory_invalidates_cache_witness :
  let cached :=
    set_cache (<["product:1" := JsonNull]>
                 (<["product:2" := JsonNull]>
                    (<["products:all" := JsonNull]>
                       (<["order:7" := JsonNull]> ∅)))) seed_world in
  let w' := snd (reserveInventory 1 [mk_line 1 2] cached) in
  (forall item, item ∈ [mk_line 1 2] ->
     w_cache w' !! ("product:" +:+ pretty (productId item)) = None)
  /\ ([mk_line 1 2] <> [] -> forall name, w_cache w' !! ("products:" +:+ name) = None)
  /\ (forall key v, w_cache w' !! key = Some v -> w_cache cached !! key = Some v)
  /\ (forall key,
        cache.glob "products:*" key = false ->
        (forall item, item ∈ [mk_line 1 2] ->
           key <> "product:" +:+ pretty (productId item)) ->
        w_cache w' !! key = w_cache cached !! key).
Proof.
  cbv zeta.
  eapply (reserveInventory_invalidates_cache 1 [mk_line 1 2]).
  vm_compute. reflexivity.
Defined.

(** X7.  [releaseInventory] invalidates in the same way, whatever the
    items: afterwards no released product has an entry under its key, no
    key that matches [products:*] has one when there was an item, nothing
    was written, and every other key keeps its entry. *)
Theorem releaseInventory_invalidates_cache
    (orderId : Z) (items : list order_line) (w : world) :
  let w' := snd (releaseInventory orderId items w) in
  (forall item, item ∈ items ->
     w_cache w' !! ("product:" +:+ pretty (productId item)) = None)
  /\ (items <> [] -> forall name, w_cache w' !! ("products:" +:+ name) = None)
  /\ (forall key v, w_cache w' !! key = Some v -> w_cache w !! key = Some v)
  /\ (forall key,
        cache.glob "products:*" key = false ->
        (forall item, item ∈ items -> key <> "product:" +:+ pretty (productId item)) ->
        w_cache w' !! key = w_cache w !! key).
Proof.
  cbv zeta. rewrite releaseInventory_trace. simpl.
  split; [intros item Hin; apply (invalidated_product_key _ _ _ Hin)|].
  split; [intros Hne name; apply invalidated_pattern;
          [exact Hne|apply glob_products]|].
  split; [intros key v; apply invalidated_only_deletes|].
  intros key Hglob Hkeys. apply invalidated_other; assumption.
Qed.

Lemma reserve_stock_distinct items : forall ps : gmap Z product,
  NoDup (map productId items) ->
  Forall (fun item =>
            exists p, ps !! productId item = Some p
                      /\ quantity item <= stock_quantity p) items ->
  exists ps', reserve_stock items ps = inr ps'.
Proof.
  induction items as [|item rest IH]; intros ps Hnodup Hall; [eexists; reflexivity|].
  simpl in Hnodup. apply NoDup_cons in Hnodup as [Hfresh Hnodup].
  apply Forall_cons in Hall as [[p [Hp Hq]] Hrest].
  cbn [reserve_stock]. rewrite Hp.
  assert ((stock_quantity p >=? quantity item) = true) as -> by lia.
  apply (IH _ Hnodup). rewrite Forall_forall in Hrest |- *. intros x Hx.
  destruct (Hrest x Hx) as [p1 [Hp1 Hq1]]. exists p1. split; [|exact Hq1].
  rewrite lookup_insert_ne; [exact Hp1|].
  intros Heq. apply Hfresh. rewrite Heq. apply list_elem_of_fmap.
  exists x. split; [reflexivity|exact Hx].
Qed.

(** X8.  For items that name pairwise different products, a check that
    found everything available is followed by a reservation that returns
    (in a run without other requests in between): the check is per line,
    the reservation per product, and they agree when no product repeats. *)
Theorem check_then_reserve_distinct
    (orderId : Z) (items : list order_line) (w : world) (r : check_result) :
  checkInventory items w = (Returned r, w) ->
  cr_available r = true ->
  NoDup (map productId items) ->
  exists w',
    reserveInventory orderId items w
    = (Returned {| sr_success := true; sr_orderId := orderId;
                   sr_items := length items |}, w').
Proof.
  intros Hcheck Havail Hnodup.
  rewrite checkInventory_run in Hcheck. injection Hcheck as <-.
  cbn [cr_available] in Havail.
  rewrite available_check_entries, negb_true_iff in Havail.
  apply covered_iff in Havail.
  destruct (reserve_stock_distinct items _ Hnodup Havail) as [ps' Hps'].
  pose proof (reserveInventory_trace orderId items w) as H.
  rewrite Hps' in H. eexists. exact H.
Qed.

(** Two laptops and a phone. *)
Lemma check_then_reserve_distinct_witness :
  exists w',
    reserveInventory 1 [mk_line 1 2; mk_line 2 1] seed_world
    = (Returned {| sr_success := true; sr_orderId := 1;
                   sr_items := length [mk_line 1 2; mk_line 2 1] |}, w').
Proof.
  eapply (check_then_reserve_distinct 1 [mk_line 1 2; mk_line 2 1] seed_world).
  - vm_compute. reflexivity.
  - reflexivity.
  - apply (bool_decide_unpack _). vm_compute. reflexivity.
Defined.

(** X9.  [getInventoryLevel] only reads.  For a product that exists it
    returns its id, sku, name and stock; for one that does not it throws an
    error that names the id and carries neither a code nor a statusCode, so
    that the error handler answers it with status 500 and code
    INTERNAL_ERROR, not with 404. *)
Theorem getInventoryLevel_cases (id : Z) (w : world) :
  snd (getInventoryLevel id w) = w
  /\ (forall p,
        products (w_db w) !! id = Some p ->
        fst (getInventoryLevel id w)
        = Returned {| il_productId := id; il_sku := sku p; il_name := name p;
                      il_stockQuantity := stock_quantity p |})
  /\ (products (w_db w) !! id = None ->
      exists e,
        fst (getInventoryLevel id w) = Thrown e
        /\ err_message e = "Product " +:+ pretty id +:+ " not found"
        /\ err_code e = None
        /\ err_statusCode e = None
        /\ forall NODE_ENV,
             fst (errorHandler NODE_ENV e) = 500
             /\ get_prop "code" (get_prop "error" (snd (errorHandler NODE_ENV e)))
                = JStr "INTERNAL_ERROR").
Proof.
  unfold getInventoryLevel, withSpan, bind. rewrite query_select_run.
  unfold select_product.
  destruct (products (w_db w) !! id) as [p|].
  - split; [reflexivity|]. split; [intros p' [= <-]; reflexivity|discriminate].
  - split; [reflexivity|]. split; [discriminate|]. intros _.
    eexists. split; [reflexivity|]. repeat split; reflexivity.
Qed.


(** ** The cache *)

(** X10.  A value written with [cache.set] is read back by [cache.get] as
    the parse of its JSON text: as itself when it holds no [Date] (nor
    undefined, NaN, infinity or minus zero).  Writing a key leaves the
    entries of the other keys alone, and a value without a JSON text (an
    undefined) makes [set] throw and write nothing. *)
Theorem cache_set_then_get (key : string) (value : jsval) (ttlSeconds : Z) (w : world) :
  let run := bind (cache.set key value ttlSeconds) (fun _ => cache.get key) w in
  (forall text,
     stringify value = Some text ->
     run = (Returned (parse text), set_cache (<[key := text]> (w_cache w)) w)
     /\ forall other,
          other <> key ->
          fst (cache.get other (snd run)) = fst (cache.get other w))
  /\ (json_pure value = true -> fst run = Returned value)
  /\ (stringify value = None -> exists e, run = (Thrown e, w)).
Proof.
  cbv zeta. unfold bind, cache.set, cache.get, withSpan.
  split; [|split].
  - intros text Htext. rewrite Htext. cbn [w_cache set_cache].
    rewrite lookup_insert_eq. split; [reflexivity|].
    intros other Hne. cbn [snd w_cache set_cache].
    rewrite lookup_insert_ne by congruence.
    destruct (w_cache w !! other); reflexivity.
  - intros Hpure. destruct (parse_stringify_pure _ Hpure) as [j [Hj Hparse]].
    rewrite Hj. cbn [w_cache set_cache]. rewrite lookup_insert_eq, Hparse.
    reflexivity.
  - intros Hnone. rewrite Hnone. eexists. reflexivity.
Qed.




(** ** GET /:id *)

Lemma lookup_assign_same k e props : lookup_prop k (assign_prop k e props) = e.
Proof.
  induction props as [|[k' e'] props IH]; simpl.
  - rewrite String.eqb_refl. reflexivity.
  - destruct (String.eqb k k') eqn:Hk; simpl; rewrite Hk; [reflexivity|exact IH].
Qed.

Lemma lookup_assign_other k k' e props :
  k' <> k -> lookup_prop k' (assign_prop k e props) = lookup_prop k' props.
Proof.
  intros Hne. induction props as [|[k0 e0] props IH]; simpl.
  - destruct (String.eqb_spec k' k); [contradiction|reflexivity].
  - destruct (String.eqb_spec k k0) as [->|Hk]; simpl.
    + destruct (String.eqb_spec k' k0); [contradiction|reflexivity].
    + destruct (String.eqb k' k0); [reflexivity|exact IH].
Qed.

(** X13.  A read that misses the cache and finds the order answers 200 with
    [cached: false] and an order that has the columns of the row as the
    driver returned them and, under [items], the array of the item rows (a
    column named items would be overwritten). *)
Theorem get_order_fresh_content
    (driver : pg_rows) (orderId : Z) (w : world)
    (row : list (string * jsval)) (rest : list (list (string * jsval))) :
  w_cache w !! ("order:" +:+ pretty orderId) = None ->
  order_rows driver (w_db w) orderId = row :: rest ->
  exists order w',
    get_order driver (Some orderId) w
    = (Returned (200, JObj [("order", order); ("cached", JBool false)]), w')
    /\ get_prop "items" order = JArr (map JObj (item_rows driver (w_db w) orderId))
    /\ (forall column, column <> "items" ->
          get_prop column order = lookup_prop column row)
    /\ w_db w' = w_db w.
Proof.
  intros Hmiss Hrow.
  pose proof (get_order_from_store driver orderId w row rest Hmiss Hrow) as H.
  cbv zeta in H. do 2 eexists. split; [exact H|]. simpl.
  split; [apply lookup_assign_same|].
  split; [intros column Hne; apply lookup_assign_other; exact Hne|reflexivity].
Qed.

(** The sample order, read from the store. *)
Lemma get_order_fresh_content_witness :
  exists order w',
    get_order sample_driver (Some 1) seed_world
    = (Returned (200, JObj [("order", order); ("cached", JBool false)]), w')
    /\ get_prop "items" order
       = JArr (map JObj (item_rows sample_driver (w_db seed_world) 1))
    /\ (forall column, column <> "items" ->
          get_prop column order = lookup_prop column sample_order_row)
    /\ w_db w' = w_db seed_world.
Proof.
  apply (get_order_fresh_content sample_driver 1 seed_world sample_order_row []);
    reflexivity.
Defined.

(** X14.  A read of an id that is not a number throws VALIDATION_ERROR, and
    a read that misses the cache and finds no order throws NOT_FOUND; both
    leave the world as it was (a missing order is not cached) and the error
    handler answers them with 400 and 404. *)
Theorem get_order_failures (driver : pg_rows) (w : world) :
  (exists e,
     get_order driver None w = (Thrown e, w)
     /\ err_code e = Some "VALIDATION_ERROR"
     /\ forall NODE_ENV, fst (errorHandler NODE_ENV e) = 400)
  /\ (forall orderId,
        w_cache w !! ("order:" +:+ pretty orderId) = None ->
        order_rows driver (w_db w) orderId = [] ->
        exists e,
          get_order driver (Some orderId) w = (Thrown e, w)
          /\ err_code e = Some "NOT_FOUND"
          /\ err_message e = "Order not found"
          /\ forall NODE_ENV, fst (errorHandler NODE_ENV e) = 404).
Proof.
  split.
  - eexists. split; [reflexivity|]. split; reflexivity.
  - intros orderId Hmiss Hrows. eexists. split.
    + unfold get_order. unfold bind at 1. unfold cache.get at 1, withSpan at 1.
      rewrite Hmiss. cbn [truthy]. unfold bind at 1.
      rewrite query_select_run, Hrows. reflexivity.
    + repeat split; reflexivity.
Qed.



(** X16.  Whatever it answers, a read of an order never changes the store,
    opens no transaction and calls no payment; in the cache it can only
    write the entry of the key [order:<id>] of the order it read. *)
Theorem get_order_footprint (driver : pg_rows) (id_param : option Z) (w : world) :
  let w' := snd (get_order driver id_param w) in
  w_db w' = w_db w
  /\ w_tx w' = w_tx w
  /\ w_payments w' = w_payments w
  /\ (forall key,
        (forall orderId, id_param = Some orderId -> key <> "order:" +:+ pretty orderId) ->
        w_cache w' !! key = w_cache w !! key).
Proof.
  cbv zeta. destruct id_param as [orderId|]; [|repeat split; reflexivity].
  assert (Hstore :
    let w' :=
      snd (bind (query_select (fun d => order_rows driver d orderId))
             (fun orderResult =>
                match orderResult with
                | [] => throw (not_found_error "Order not found")
                | row :: _ =>
                    await itemsResult <-
                      query_select (fun d => item_rows driver d orderId);
                    let order :=
                      JObj (assign_prop "items" (JArr (map JObj itemsResult)) row) in
                    await_ cache.set ("order:" +:+ pretty orderId) order 120;
                    ret (200, JObj [("order", order); ("cached", JBool false)])
                end) w) in
    w_db w' = w_db w /\ w_tx w' = w_tx w /\ w_payments w' = w_payments w
    /\ (forall key,
          (forall id, Some orderId = Some id -> key <> "order:" +:+ pretty id) ->
          w_cache w' !! key = w_cache w !! key)).
  { cbv zeta. unfold bind, query_select, cache.set, withSpan, ret, throw.
    cbn beta iota.
    destruct (order_rows driver (w_db w) orderId) as [|row rest]; cbn beta iota.
    - repeat split; reflexivity.
    - rewrite stringify_obj. cbn beta iota.
      cbn [snd w_db w_tx w_payments w_cache set_cache].
      repeat (split; [reflexivity|]).
      intros key Hkey. rewrite lookup_insert_ne; [reflexivity|].
      intros Heq. apply (Hkey orderId eq_refl). congruence. }
  set (store :=
         bind (query_select (fun d => order_rows driver d orderId))
           (fun orderResult =>
              match orderResult with
              | [] => throw (not_found_error "Order not found")
              | row :: _ =>
                  await itemsResult <-
                    query_select (fun d => item_rows driver d orderId);
                  let order :=
                    JObj (assign_prop "items" (JArr (map JObj itemsResult)) row) in
                  await_ cache.set ("order:" +:+ pretty orderId) order 120;
                  ret (200, JObj [("order", order); ("cached", JBool false)])
              end) w) in *.
  assert (Heval :
    get_order driver (Some orderId) w
    = match w_cache w !! ("order:" +:+ pretty orderId) with
      | Some value =>
          if truthy (parse value)
          then (Returned (200, JObj [("order", parse value); ("cached", JBool true)]), w)
          else store
      | None => store
      end).
  { unfold get_order. unfold bind at 1. unfold cache.get at 1, withSpan at 1.
    destruct (w_cache w !! ("order:" +:+ pretty orderId)) as [value|]; cbv beta iota;
      [destruct (truthy (parse value))|]; reflexivity. }
  rewrite Heval.
  destruct (w_cache w !! ("order:" +:+ pretty orderId)) as [value|];
    [destruct (truthy (parse value))|]; try exact Hstore.
  repeat split; reflexivity.
Qed.


(** ** POST / *)

(** X17.  When the user exists, every product is found and covered, the
    reservation succeeds and the gateway approves, the handler answers 201
    with the order joined to its user; the order row is 'confirmed' with
    payment_status 'completed', the stock of every product has gone down by
    what the request asks of it, all lines together, the gateway was called
    once, for this order, and the response carries one detail per line and
    the transaction id of the payment. *)
Theorem create_order_confirmed
    (transactionId timestamp : string) (req : order_request) (w : world) (u : user) :
  users (w_db w) !! userId req = Some u ->
  Forall (fun item =>
            exists p, products (w_db w) !! productId item = Some p
                      /\ quantity item <= stock_quantity p) (items req) ->
  is_returned
    (fst (reserveInventory (next_order_id (w_db w)) (items req) w)) = true ->
  exists resp w' o,
    create_order (Approves transactionId timestamp) req w = (Returned resp, w')
    /\ resp_status resp = 201
    /\ resp_order resp = Some (next_order_id (w_db w), o, u)
    /\ orders (w_db w') !! next_order_id (w_db w) = Some o
    /\ status o = "confirmed"
    /\ payment_status o = "completed"
    /\ user_id o = userId req
    /\ payment_method o = paymentMethod req
    /\ (forall id,
          products (w_db w') !! id
          = (fun p => set_stock (stock_quantity p - requested (items req) id) p)
              <$> products (w_db w) !! id)
    /\ length (resp_items resp) = length (items req)
    /\ pr_success (resp_payment resp) = true
    /\ pr_transactionId (resp_payment resp) = transactionId
    /\ w_payments w'
       = w_payments w
         ++ [{| pc_order_id := next_order_id (w_db w);
                pc_amount := float_total (w_db w) (items req);
                pc_method := paymentMethod req |}]
    /\ w_tx w' = None.
Proof.
  intros Hu Hitems Hreserved.
  destruct (reserveInventory_returned _ _ _ Hreserved) as [ps' Hps'].
  destruct (served_items _ _ Hitems) as [Hfound Hserved].
  pose proof (create_order_run (Approves transactionId timestamp) req w) as Hrun.
  cbv zeta in Hrun.
  rewrite Hu, Hfound, Hserved, Hps' in Hrun. destruct Hrun as [c' Hrun].
  do 3 eexists. split; [exact Hrun|]. cbn [resp_status resp_order resp_items
    resp_payment pr_success pr_transactionId w_db w_payments w_tx].
  split; [reflexivity|].
  assert (Hrow :
    orders (update_order_payment "completed" "confirmed" (next_order_id (w_db w))
              (set_products ps'
                 (order_written req (float_total (w_db w) (items req))
                    (details_of (w_db w) (items req)) (w_db w))))
      !! next_order_id (w_db w)
    = Some {| user_id := userId req; status := "confirmed";
              total_amount := float_total (w_db w) (items req);
              payment_method := paymentMethod req;
              payment_status := "completed" |}).
  { erewrite order_after_payment_update
      by (cbn [orders set_products]; apply order_written_row).
    reflexivity. }
  split.
  { unfold select_order_user. rewrite Hrow. cbn [user_id users
      update_order_payment set_orders set_products order_written].
    rewrite Hu. reflexivity. }
  split; [exact Hrow|].
  repeat (split; [reflexivity|]).
  split; [intros id; apply (reserve_stock_lookup _ _ _ Hps')|].
  split; [|repeat split; reflexivity].
  clear -Hitems. induction Hitems as [|item rest [p [Hp _]] _ IH]; [reflexivity|].
  unfold details_of in *. cbn [omap list_omap]. rewrite Hp. simpl.
  f_equal. exact IH.
Qed.

(** The scenario of the specification: the first user orders one laptop. *)
Lemma create_order_confirmed_witness :
  exists resp w' o,
    create_order (Approves "txn_1700000000000_k3x9q" "2023-11-14T22:13:20.000Z")
      {| userId := 1; items := [mk_line 1 1]; paymentMethod := "credit_card" |}
      seed_world = (Returned resp, w')
    /\ resp_status resp = 201
    /\ resp_order resp
       = Some (next_order_id (w_db seed_world), o, mk_user "john@example.com" "John Doe")
    /\ orders (w_db w') !! next_order_id (w_db seed_world) = Some o
    /\ status o = "confirmed"
    /\ payment_status o = "completed"
    /\ user_id o = 1
    /\ payment_method o = "credit_card"
    /\ (forall id,
          products (w_db w') !! id
          = (fun p => set_stock (stock_quantity p - requested [mk_line 1 1] id) p)
              <$> products (w_db seed_world) !! id)
    /\ length (resp_items resp) = length [mk_line 1 1]
    /\ pr_success (resp_payment resp) = true
    /\ pr_transactionId (resp_payment resp) = "txn_1700000000000_k3x9q"
    /\ w_payments w'
       = w_payments seed_world
         ++ [{| pc_order_id := next_order_id (w_db seed_world);
                pc_amount := float_total (w_db seed_world) [mk_line 1 1];
                pc_method := "credit_card" |}]
    /\ w_tx w' = None.
Proof.
  apply (create_order_confirmed "txn_1700000000000_k3x9q" "2023-11-14T22:13:20.000Z"
           {| userId := 1; items := [mk_line 1 1]; paymentMethod := "credit_card" |}
           seed_world (mk_user "john@example.com" "John Doe") eq_refl).
  - repeat constructor.
    exists (mk_product "LAPTOP-001" "Premium Laptop" 129999 50).
    split; [reflexivity|simpl; lia].
  - vm_compute. reflexivity.
Defined.




(** The shapes a run of the handler can end in, read off [create_order_run]:
    nothing written, or the order row written and ended in one of its three
    end states. *)
Lemma create_order_ends draw req w :
  let d := w_db w in
  let run := create_order draw req w in
  (exists e, run = (Thrown e, w) /\ (err_code e = Some "NOT_FOUND"
                                      \/ err_code e = Some "INSUFFICIENT_INVENTORY"))
  \/ (exists c' d' o,
        snd run = mk_world d' None c' (w_payments w ++
                    (if is_returned (fst run) then
                       [{| pc_order_id := next_order_id d;
                           pc_amount := float_total d (items req);
                           pc_method := paymentMethod req |}]
                     else match fst run with
                          | Thrown e =>
                              if code_is e "PAYMENT_FAILED" then
                                [{| pc_order_id := next_order_id d;
                                    pc_amount := float_total d (items req);
                                    pc_method := paymentMethod req |}]
                              else []
                          | Returned _ => []
                          end))
        /\ users d' = users d
        /\ orders d'
           = <[next_order_id d := o]> (orders d)
        /\ orders_id_seq d' = next_order_id d
        /\ user_id o = userId req
        /\ end_state o
        /\ (status o = "confirmed" <-> is_returned (fst run) = true)
        /\ (is_returned (fst run) = false -> products d' = products d)).
Proof.
  cbv zeta. pose proof (create_order_run draw req w) as H. cbv zeta in H.
  destruct (users (w_db w) !! userId req) as [u|].
  2:{ left. eexists. split; [exact H|]. left. reflexivity. }
  destruct (List.find (missing (w_db w)) (items req)) as [bad|].
  { left. eexists. split; [exact H|]. left. reflexivity. }
  destruct (existsb (insufficient (w_db w)) (items req)).
  { left. eexists. split; [exact H|]. right. reflexivity. }
  right. destruct H as [c' H].
  destruct (reserve_stock (items req) (products (w_db w))) as [id|ps'] eqn:Hres;
    [|destruct draw as [reason|transactionId timestamp]]; rewrite H;
    cbn [fst snd is_returned]; exists c'; do 2 eexists;
    (split; [rewrite ?app_nil_r; reflexivity|]);
    cbn [users orders orders_id_seq products update_order_status
         update_order_payment set_orders set_products order_written];
    (split; [reflexivity|]).
  - split.
    { apply map_eq. intros k. rewrite lookup_alter.
      destruct (decide (next_order_id (w_db w) = k)) as [<-|Hne].
      - rewrite !lookup_insert_eq. reflexivity.
      - rewrite !lookup_insert_ne by exact Hne. reflexivity. }
    split; [reflexivity|]. split; [reflexivity|].
    split; [right; right; split; reflexivity|].
    split; [split; discriminate|]. reflexivity.
  - split.
    { apply map_eq. intros k. rewrite lookup_alter.
      destruct (decide (next_order_id (w_db w) = k)) as [<-|Hne].
      - rewrite !lookup_insert_eq. reflexivity.
      - rewrite !lookup_insert_ne by exact Hne. reflexivity. }
    split; [reflexivity|]. split; [reflexivity|].
    split; [right; left; split; reflexivity|].
    split; [split; discriminate|].
    intros _. apply (release_after_reserve _ _ _ Hres).
  - split.
    { apply map_eq. intros k. rewrite lookup_alter.
      destruct (decide (next_order_id (w_db w) = k)) as [<-|Hne].
      - rewrite !lookup_insert_eq. reflexivity.
      - rewrite !lookup_insert_ne by exact Hne. reflexivity. }
    split; [reflexivity|]. split; [reflexivity|].
    split; [left; split; reflexivity|].
    split; [split; reflexivity|]. discriminate.
Qed.


(** X19.  Whatever the request and the draw of the gateway, the handler
    never touches the users table nor the row of another order.  Either it
    leaves the world as it was, or it has taken the next id of the sequence
    and written the row of that id, which at the end of the request is in
    one of three states: confirmed and completed (exactly when the handler
    returns), cancelled and failed, or failed and pending; it never ends
    pending, and no transaction is left open.  The gateway is called at
    most once. *)
Theorem create_order_footprint
    (draw : gateway_draw) (req : order_request) (w : world) :
  let run := create_order draw req w in
  let w' := snd run in
  users (w_db w') = users (w_db w)
  /\ (forall id, id <> next_order_id (w_db w) ->
        orders (w_db w') !! id = orders (w_db w) !! id)
  /\ (w' = w
      \/ (orders_id_seq (w_db w') = next_order_id (w_db w)
          /\ w_tx w' = None
          /\ exists o,
               orders (w_db w') !! next_order_id (w_db w) = Some o
               /\ user_id o = userId req
               /\ end_state o
               /\ status o <> "pending"
               /\ (status o = "confirmed" <-> is_returned (fst run) = true)))
  /\ (w_payments w' = w_payments w
      \/ w_payments w'
         = w_payments w
           ++ [{| pc_order_id := next_order_id (w_db w);
                  pc_amount := float_total (w_db w) (items req);
                  pc_method := paymentMethod req |}]).
Proof.
  cbv zeta. pose proof (create_order_ends draw req w) as H. cbv zeta in H.
  destruct H as [[e [-> _]]|[c' [d' [o [Hw' [Hu [Ho [Hseq [Huid [Hend [Hconf _]]]]]]]]]]].
  { cbn [snd]. split; [reflexivity|]. split; [reflexivity|].
    split; left; reflexivity. }
  rewrite Hw'. cbn [w_db w_tx w_payments].
  split; [exact Hu|]. split.
  { intros id Hid. rewrite Ho, lookup_insert_ne by congruence. reflexivity. }
  split.
  { right. split; [exact Hseq|]. split; [reflexivity|]. exists o.
    split; [rewrite Ho; apply lookup_insert_eq|]. split; [exact Huid|].
    split; [exact Hend|]. split; [|exact Hconf].
    destruct Hend as [[-> _]|[[-> _]|[-> _]]]; discriminate. }
  destruct (fst (create_order draw req w)) as [resp|e]; cbn [is_returned].
  - right. reflexivity.
  - destruct (code_is e "PAYMENT_FAILED"); [right; reflexivity|].
    left. apply app_nil_r.
Qed.

(** X20.  When the handler throws, whatever the error, the products table
    is the one before the request: stock only changes for an order that is
    confirmed. *)
Theorem create_order_thrown_keeps_stock
    (draw : gateway_draw) (req : order_request) (w w' : world) (e : js_error) :
  create_order draw req w = (Thrown e, w') ->
  products (w_db w') = products (w_db w)
  /\ forall id, stock_of (w_db w') id = stock_of (w_db w) id.
Proof.
  intros Hrun. pose proof (create_order_ends draw req w) as H. cbv zeta in H.
  rewrite Hrun in H. cbn [fst snd is_returned] in H.
  assert (Hp : products (w_db w') = products (w_db w)).
  { destruct H as [[e' [[= _ ->] _]]|[c' [d' [o [-> [_ [_ [_ [_ [_ [_ Hp]]]]]]]]]]].
    - reflexivity.
    - apply Hp. reflexivity. }
  split; [exact Hp|]. intros id. unfold stock_of. rewrite Hp. reflexivity.
Qed.

(** 30 laptops twice: the reservation fails after the first decrement. *)
Lemma create_order_thrown_keeps_stock_witness :
  products
    (w_db (snd (create_order (Declines invalid_cvv)
                  {| userId := 1; items := [mk_line 1 30; mk_line 1 30];
                     paymentMethod := "paypal" |} seed_world)))
  = products (w_db seed_world)
  /\ forall id,
       stock_of
         (w_db (snd (create_order (Declines invalid_cvv)
                       {| userId := 1; items := [mk_line 1 30; mk_line 1 30];
                          paymentMethod := "paypal" |} seed_world))) id
       = stock_of (w_db seed_world) id.
Proof.
  eapply (create_order_thrown_keeps_stock (Declines invalid_cvv)
            {| userId := 1; items := [mk_line 1 30; mk_line 1 30];
               paymentMethod := "paypal" |} seed_world).
  vm_compute. reflexivity.
Defined.

(** X21.  In a store where every order id is at most the value of the
    sequence, the id that the handler takes is the id of no existing order,
    so the INSERT replaces no row, and the store after the request is again
    such a store. *)
Theorem create_order_fresh_id
    (draw : gateway_draw) (req : order_request) (w : world) :
  orders_wf (w_db w) ->
  orders (w_db w) !! next_order_id (w_db w) = None
  /\ orders_wf (w_db (snd (create_order draw req w))).
Proof.
  intros Hwf. split.
  { destruct (orders (w_db w) !! next_order_id (w_db w)) as [o|] eqn:Ho;
      [|reflexivity].
    apply Hwf in Ho. unfold next_order_id in Ho. lia. }
  pose proof (create_order_ends draw req w) as H. cbv zeta in H.
  destruct H as [[e [-> _]]|[c' [d' [o [-> [_ [Ho [Hseq _]]]]]]]]; [exact Hwf|].
  cbn [w_db]. intros id o' Hid. rewrite Hseq. rewrite Ho in Hid.
  destruct (decide (id = next_order_id (w_db w))) as [->|Hne]; [lia|].
  rewrite lookup_insert_ne in Hid by congruence.
  apply Hwf in Hid. unfold next_order_id. lia.
Qed.

(** The seeded store has no order. *)
Lemma create_order_fresh_id_witness :
  orders (w_db seed_world) !! next_order_id (w_db seed_world) = None
  /\ orders_wf
       (w_db (snd (create_order (Declines card_declined)
                     {| userId := 1; items := [mk_line 1 1];
                        paymentMethod := "paypal" |} seed_world))).
Proof.
  apply (create_order_fresh_id (Declines card_declined)
           {| userId := 1; items := [mk_line 1 1]; paymentMethod := "paypal" |}
           seed_world).
  intros id o H. change (orders (w_db seed_world)) with (∅ : gmap Z order) in H.
  rewrite lookup_empty in H. discriminate H.
Defined.

Lemma find_missing_first d pre item post :
  Forall (fun line => is_Some (products d !! productId line)) pre ->
  products d !! productId item = None ->
  List.find (missing d) (pre ++ item :: post) = Some item.
Proof.
  intros Hpre Hitem. induction Hpre as [|line pre [p Hp] _ IH]; simpl.
  - unfold missing. rewrite Hitem. reflexivity.
  - unfold missing at 1. rewrite Hp. exact IH.
Qed.

(** X22.  The order of the checks, for a known user.  The first line, in
    the order of the request, whose product does not exist is the one the
    NOT_FOUND error names, also when a line before it asks for more than the
    stock and whatever follows it: every product is looked up before any
    stock is compared.  The world is left as it was. *)
Theorem create_order_first_missing_product
    (draw : gateway_draw) (req : order_request) (w : world)
    (u : user) (pre post : list order_line) (item : order_line) :
  users (w_db w) !! userId req = Some u ->
  items req = pre ++ item :: post ->
  Forall (fun line => is_Some (products (w_db w) !! productId line)) pre ->
  products (w_db w) !! productId item = None ->
  create_order draw req w
  = (Thrown (not_found_error
               ("Product " +:+ pretty (productId item) +:+ " not found")), w).
Proof.
  intros Hu Hitems Hpre Hitem.
  pose proof (create_order_run draw req w) as H. cbv zeta in H.
  rewrite Hu, Hitems in H.
  rewrite (find_missing_first _ _ _ _ Hpre Hitem) in H. exact H.
Qed.

(** 10000 laptops, then two products that do not exist: the second line is
    the one reported. *)
Lemma create_order_first_missing_product_witness :
  create_order (Declines card_declined)
    {| userId := 1;
       items := [mk_line 1 10000; mk_line 999 1; mk_line 888 1];
       paymentMethod := "paypal" |} seed_world
  = (Thrown (not_found_error "Product 999 not found"), seed_world).
Proof.
  refine (create_order_first_missing_product (Declines card_declined)
            {| userId := 1;
               items := [mk_line 1 10000; mk_line 999 1; mk_line 888 1];
               paymentMethod := "paypal" |} seed_world
            _ [mk_line 1 10000] [mk_line 888 1] (mk_line 999 1) _ _ _ _).
  - vm_compute. reflexivity.
  - reflexivity.
  - apply (@List.Forall_cons _ _ (mk_line 1 10000) []);
      [|apply (@List.Forall_nil _ _)].
    vm_compute. eexists. reflexivity.
  - vm_compute. reflexivity.
Defined.

(** X23.  The response to an INSUFFICIENT_INVENTORY failure of the handler
    has status 409 and a body that holds the message and the code only
    (and the stack in development): the list of the offending items, which
    the error carries in [details], is not sent to the client. *)
Theorem create_order_insufficient_response
    (draw : gateway_draw) (req : order_request) (w w' : world) (e : js_error) :
  create_order draw req w = (Thrown e, w') ->
  err_code e = Some "INSUFFICIENT_INVENTORY" ->
  (exists details, err_details e = Some details /\ details <> [])
  /\ forall NODE_ENV,
       let response := errorHandler NODE_ENV e in
       fst response = 409
       /\ prop_names (snd response) = ["error"]
       /\ has_prop "details" (get_prop "error" (snd response)) = false
       /\ (NODE_ENV <> Some "development" ->
           snd response
           = JObj [("error",
                    JObj [("message",
                           JStr "Insufficient inventory for one or more items");
                          ("code", JStr "INSUFFICIENT_INVENTORY")])]).
Proof.
  intros Hrun Hcode.
  pose proof (create_order_run draw req w) as H. cbv zeta in H.
  assert (He : exists details,
             e = insufficient_error details /\ details <> []).
  { destruct (users (w_db w) !! userId req) as [u|].
    2:{ rewrite H in Hrun. injection Hrun as <- _. discriminate Hcode. }
    destruct (List.find (missing (w_db w)) (items req)) as [bad|].
    { rewrite H in Hrun. injection Hrun as <- _. discriminate Hcode. }
    destruct (existsb (insufficient (w_db w)) (items req)) eqn:Hex.
    { rewrite H in Hrun. injection Hrun as <- _. eexists. split; [reflexivity|].
      apply existsb_exists in Hex as [item [Hin Hitem]].
      intros Hnil. apply map_eq_nil in Hnil.
      assert (Hf : In item (List.filter (insufficient (w_db w)) (items req)))
        by (apply filter_In; auto).
      rewrite Hnil in Hf. exact Hf. }
    destruct H as [c' H].
    destruct (reserve_stock (items req) (products (w_db w))) as [id|ps'];
      [|destruct draw as [reason|transactionId timestamp]];
      rewrite H in Hrun; try discriminate;
      injection Hrun as <- _; discriminate Hcode. }
  destruct He as [details [-> Hne]]. split; [exists details; split; [reflexivity|exact Hne]|].
  intros NODE_ENV. cbv zeta. split; [reflexivity|]. split; [reflexivity|].
  split.
  - destruct NODE_ENV as [env|]; [|reflexivity]. simpl.
    destruct (String.eqb env "development"); reflexivity.
  - intros Henv. destruct NODE_ENV as [env|]; [|reflexivity].
    unfold errorHandler. cbn [snd].
    destruct (String.eqb_spec env "development") as [->|_]; [congruence|].
    reflexivity.
Qed.

(** The scenario of the specification: 10000 laptops against a stock of 50. *)
Lemma create_order_insufficient_response_witness :
  (exists details,
     err_details (insufficient_error [check_entry seed_db (mk_line 1 10000)])
     = Some details /\ details <> [])
  /\ forall NODE_ENV,
       let response :=
         errorHandler NODE_ENV
           (insufficient_error [check_entry seed_db (mk_line 1 10000)]) in
       fst response = 409
       /\ prop_names (snd response) = ["error"]
       /\ has_prop "details" (get_prop "error" (snd response)) = false
       /\ (NODE_ENV <> Some "development" ->
           snd response
           = JObj [("error",
                    JObj [("message",
                           JStr "Insufficient inventory for one or more items");
                          ("code", JStr "INSUFFICIENT_INVENTORY")])]).
Proof.
  apply (create_order_insufficient_response (Declines expired_card)
           {| userId := 1; items := [mk_line 1 10000];
              paymentMethod := "credit_card" |}
           seed_world seed_world
           (insufficient_error [check_entry seed_db (mk_line 1 10000)])).
  - vm_compute. reflexivity.
  - reflexivity.
Defined.
